(** * Criteria dashboard: the metrics-aggregation pipeline of [streamlit_app.py]

    A shallow embedding of the data path of the dashboard:

    - the two SQL aggregation queries ([carregar_dados_categorias],
      [carregar_dados_matriculas]) as list programs over the four relations
      they read;
    - the query executor [executar_consulta] with its [try]/[except];
    - the pandas steps of the script body: left merge on [entidade_id],
      [fillna(0)], the two derived percentage columns, the three filters and
      the guarded percentages of the summary;
    - the script body itself, as a program that emits the Streamlit calls it
      makes.

    Counts and identifiers are [Z]; float64 values are [spec_float] at
    precision 53, the Standard Library's executable IEEE 754 binary64. *)

From Stdlib Require Import ZArith List Bool String Lia Sorted Permutation.
From Stdlib Require Import Floats.SpecFloat.
Import ListNotations.
Local Open Scope Z_scope.

(** ** Relational operators *)

Module Sql.

Section Operators.
Context {A B K : Type}.

(** [l LEFT JOIN r ON on]: every left row once per matching right row, in
    the order of [r]; a left row without a match once, padded with NULL. *)
Definition left_join (on : A -> B -> bool) (l : list A) (r : list B)
    : list (A * option B) :=
    flat_map (fun a =>
                match filter (on a) r with
                | [] => [(a, None)]
                | ms => map (fun b => (a, Some b)) ms
                end) l.

Variable K_dec : forall x y : K, {x = y} + {x <> y}.

Definition same_key (key : A -> K) (k : K) (a : A) : bool :=
    if K_dec (key a) k then true else false.

(** [GROUP BY key]: one group per distinct key, holding the rows of that
    key. *)
Definition group_by (key : A -> K) (rows : list A) : list (K * list A) :=
    map (fun k => (k, filter (same_key key k) rows))
        (nodup K_dec (map key rows)).
End Operators.

(** [COUNT(DISTINCT x)]: NULLs are not counted. *)
Fixpoint non_null {V : Type} (xs : list (option V)) : list V :=
  match xs with
  | [] => []
  | Some v :: xs' => v :: non_null xs'
  | None :: xs' => non_null xs'
  end.

Definition count_distinct (xs : list (option Z)) : Z :=
  Z.of_nat (List.length (nodup Z.eq_dec (non_null xs))).

(** [SUM(CASE WHEN c THEN 1 ELSE 0 END)] over the rows of a group. *)
Definition sum_case {A : Type} (c : A -> bool) (rows : list A) : Z :=
  fold_right (fun a acc => (if c a then 1 else 0) + acc) 0 rows.

(** Three-valued logic: [None] is NULL/unknown. [WHEN c] takes its branch
    only when [c] is true. *)
Definition and3 (x y : option bool) : option bool :=
  match x, y with
  | Some false, _ | _, Some false => Some false
  | Some true, Some true => Some true
  | _, _ => None
  end.

Definition is_not_null {V : Type} (v : option V) : option bool :=
  Some (match v with Some _ => true | None => false end).

(** [b = true] on a nullable boolean column. *)
Definition eq_true (b : option bool) : option bool := b.

Definition when (c : option bool) : bool :=
  match c with Some true => true | _ => false end.

Section OrderBy.
Context {A : Type}.
Variable key : A -> Z.

(** [ORDER BY key DESC]. SQL leaves the order of ties open; this one keeps
    tied rows in their incoming order. *)
Fixpoint insert_desc (a : A) (l : list A) : list A :=
    match l with
    | [] => [a]
    | b :: l' => if key b <? key a then a :: l else b :: insert_desc a l'
    end.

Definition order_by_desc (l : list A) : list A :=
    fold_right insert_desc [] l.

(** The order of the result: no later row has a greater key. *)
Definition desc (a b : A) : Prop := key b <= key a.
End OrderBy.

End Sql.

(** ** The relations the queries read

    The schema is not part of the script; the columns are the ones the two
    queries name. [id] columns are keys and never NULL; the columns the
    queries test with [IS NOT NULL] are nullable, and so are the booleans
    compared with [= true]. *)

Record entidade := {
  e_id : Z;
  e_nome : string
}.

Record criterio_avaliativo := {
  ca_id : Z;
  ca_entidade_id : Z;
  ca_formula_personalizada : option string;
  ca_criterio_calculo_grupo_id : option Z;
  ca_possui_criterios_grupos : option bool;
  ca_possui_recuperacao_paralela : option bool;
  ca_possui_recuperacao_semestral : option bool
}.

Record turma := {
  t_id : Z;
  t_entidade_id : Z
}.

Record matricula := {
  m_id : Z;
  m_turma_id : Z
}.

Record banco := {
  entidades : list entidade;
  criterios_avaliativos : list criterio_avaliativo;
  turmas : list turma;
  matriculas : list matricula
}.

(** ** Result rows of the two queries

    [COUNT] and [SUM] of integers come back as int64 columns. *)

Record linha_categorias := {
  cat_entidade_id : Z;
  cat_nome_entidade : string;
  total_criterios : Z;
  formula_personalizada : Z;
  criterio_grupo : Z;
  grupo_rec_paralela : Z;
  grupo_rec_semestral : Z;
  formula_rec_paralela : Z;
  formula_rec_semestral : Z
}.

Record linha_matriculas := {
  mat_entidade_id : Z;
  mat_nome_entidade : string;
  mat_total_matriculas : Z;
  mat_total_turmas : Z
}.

Definition chave := (Z * string)%type.

Definition chave_dec (x y : chave) : {x = y} + {x <> y}.
Proof. decide equality; [apply string_dec | apply Z.eq_dec]. Defined.

(** ** [carregar_dados_categorias]: the criteria aggregate *)

Definition linha_ca := (entidade * option criterio_avaliativo)%type.

(** [ca.<col>] on a joined row: NULL on the padding of the left join. *)
Definition col {V : Type} (f : criterio_avaliativo -> option V) (r : linha_ca)
  : option V :=
  match snd r with Some ca => f ca | None => None end.

Definition col_ca_id (r : linha_ca) : option Z :=
  match snd r with Some ca => Some (ca_id ca) | None => None end.

(** [ca.formula_personalizada IS NOT NULL] *)
Definition tem_formula (r : linha_ca) : option bool :=
  Sql.is_not_null (col ca_formula_personalizada r).

(** [ca.criterio_calculo_grupo_id IS NOT NULL] *)
Definition tem_grupo_id (r : linha_ca) : option bool :=
  Sql.is_not_null (col ca_criterio_calculo_grupo_id r).

Definition cond_formula (r : linha_ca) : bool :=
  Sql.when (tem_formula r).

Definition cond_grupo (r : linha_ca) : bool :=
  Sql.when (Sql.and3 (tem_grupo_id r)
                     (Sql.eq_true (col ca_possui_criterios_grupos r))).

Definition cond_grupo_rec_paralela (r : linha_ca) : bool :=
  Sql.when (Sql.and3 (Sql.and3 (tem_grupo_id r)
                               (Sql.eq_true (col ca_possui_criterios_grupos r)))
                     (Sql.eq_true (col ca_possui_recuperacao_paralela r))).

Definition cond_grupo_rec_semestral (r : linha_ca) : bool :=
  Sql.when (Sql.and3 (Sql.and3 (tem_grupo_id r)
                               (Sql.eq_true (col ca_possui_criterios_grupos r)))
                     (Sql.eq_true (col ca_possui_recuperacao_semestral r))).

Definition cond_formula_rec_paralela (r : linha_ca) : bool :=
  Sql.when (Sql.and3 (tem_formula r)
                     (Sql.eq_true (col ca_possui_recuperacao_paralela r))).

Definition cond_formula_rec_semestral (r : linha_ca) : bool :=
  Sql.when (Sql.and3 (tem_formula r)
                     (Sql.eq_true (col ca_possui_recuperacao_semestral r))).

Definition chave_ca (r : linha_ca) : chave := (e_id (fst r), e_nome (fst r)).

(** FROM entidades e LEFT JOIN criterios_avaliativos ca
    ON ca.entidade_id = e.id *)
Definition juncao_categorias (db : banco) : list linha_ca :=
  Sql.left_join (fun e ca => ca_entidade_id ca =? e_id e)
                (entidades db) (criterios_avaliativos db).

(** The SELECT list, evaluated on one group. *)
Definition agregar_categorias (g : chave * list linha_ca) : linha_categorias :=
  {| cat_entidade_id := fst (fst g);
     cat_nome_entidade := snd (fst g);
     total_criterios := Sql.count_distinct (map col_ca_id (snd g));
     formula_personalizada := Sql.sum_case cond_formula (snd g);
     criterio_grupo := Sql.sum_case cond_grupo (snd g);
     grupo_rec_paralela := Sql.sum_case cond_grupo_rec_paralela (snd g);
     grupo_rec_semestral := Sql.sum_case cond_grupo_rec_semestral (snd g);
     formula_rec_paralela := Sql.sum_case cond_formula_rec_paralela (snd g);
     formula_rec_semestral := Sql.sum_case cond_formula_rec_semestral (snd g) |}.

(** GROUP BY e.id, e.nome HAVING COUNT(DISTINCT ca.id) > 0
    ORDER BY total_criterios DESC *)
Definition consulta_categorias (db : banco) : list linha_categorias :=
  Sql.order_by_desc total_criterios
    (filter (fun r => total_criterios r >? 0)
       (map agregar_categorias
          (Sql.group_by chave_dec chave_ca (juncao_categorias db)))).

(** ** [carregar_dados_matriculas]: the enrollment aggregate *)

Definition linha_mt := ((entidade * option turma) * option matricula)%type.

Definition col_t_id (r : linha_mt) : option Z :=
  match snd (fst r) with Some t => Some (t_id t) | None => None end.

Definition col_m_id (r : linha_mt) : option Z :=
  match snd r with Some m => Some (m_id m) | None => None end.

Definition chave_mt (r : linha_mt) : chave :=
  (e_id (fst (fst r)), e_nome (fst (fst r))).

(** FROM entidades e LEFT JOIN turmas t ON t.entidade_id = e.id
    LEFT JOIN matriculas m ON m.turma_id = t.id *)
Definition juncao_matriculas (db : banco) : list linha_mt :=
  Sql.left_join
    (fun (et : entidade * option turma) m =>
       match snd et with
       | Some t => m_turma_id m =? t_id t
       | None => false
       end)
    (Sql.left_join (fun e t => t_entidade_id t =? e_id e)
                   (entidades db) (turmas db))
    (matriculas db).

Definition agregar_matriculas (g : chave * list linha_mt) : linha_matriculas :=
  {| mat_entidade_id := fst (fst g);
     mat_nome_entidade := snd (fst g);
     mat_total_matriculas := Sql.count_distinct (map col_m_id (snd g));
     mat_total_turmas := Sql.count_distinct (map col_t_id (snd g)) |}.

(** GROUP BY e.id, e.nome ORDER BY total_matriculas DESC *)
Definition consulta_matriculas (db : banco) : list linha_matriculas :=
  Sql.order_by_desc mat_total_matriculas
    (map agregar_matriculas
       (Sql.group_by chave_dec chave_mt (juncao_matriculas db))).

(** ** float64

    pandas divides two int64 columns as float64. The operations below are
    the Standard Library's IEEE 754 ones at binary64. *)

Module Float64.

Definition prec : Z := 53.
Definition emax : Z := 1024.

Definition float := spec_float.

(** int64 to float64, rounding to nearest even. *)
Definition of_Z (z : Z) : float := binary_normalize prec emax z 0 false.

Definition div : float -> float -> float := SFdiv prec emax.
Definition mul : float -> float -> float := SFmul prec emax.

Definition is_nan (x : float) : bool :=
  match x with S754_nan => true | _ => false end.

Definition is_infinity (x : float) : bool :=
  match x with S754_infinity _ => true | _ => false end.

(** [numpy.rint]: the nearest integer, ties to even; NaN, infinities and
    zeros are returned as they are. *)
Definition rint (x : float) : float :=
  match x with
  | S754_finite s m e =>
      if 0 <=? e then x
      else
        let d := 2 ^ (- e) in
        let q := Z.pos m / d in
        let r := Z.pos m mod d in
        let n := match 2 * r ?= d with
                 | Lt => q
                 | Gt => q + 1
                 | Eq => if Z.even q then q else q + 1
                 end in
        binary_normalize prec emax (if s then - n else n) 0 s
  | _ => x
  end.

(** [Series.round(1)], which is [numpy.round(x, 1)]: scale by ten, [rint],
    scale back. *)
Definition round_1 (x : float) : float :=
  div (rint (mul x (of_Z 10))) (of_Z 10).

End Float64.

(** [(parte / total * 100).round(1)] on int64 operands. *)
Definition percentual (parte total : Z) : Float64.float :=
  Float64.round_1
    (Float64.mul (Float64.div (Float64.of_Z parte) (Float64.of_Z total))
                 (Float64.of_Z 100)).

(** ** The merged table [df_completo] *)

(** A row of [pd.merge(..., how='left')] before [fillna]: the columns that
    come from the right frame are NaN ([None]) where no right row matched. *)
Record linha_mesclada := {
  mg_categorias : linha_categorias;
  mg_total_matriculas : option Z;
  mg_total_turmas : option Z
}.

(** A row of [df_completo]: the criteria columns, the two enrollment columns
    after [fillna(0)], and the two derived columns. *)
Record linha_completa := {
  categorias : linha_categorias;
  total_matriculas : Z;
  total_turmas : Z;
  percentual_formula : Float64.float;
  percentual_grupo : Float64.float
}.

Definition entidade_id (r : linha_completa) : Z :=
  cat_entidade_id (categorias r).

Definition nome_entidade (r : linha_completa) : string :=
  cat_nome_entidade (categorias r).

(** [pd.merge(df_categorias,
              df_matriculas[['entidade_id', 'total_matriculas', 'total_turmas']],
              on='entidade_id', how='left')]:
    left rows in their order, each once per right row of the same
    [entidade_id], or once with NaN when there is none. *)
Definition pd_merge_left (df_categorias : list linha_categorias)
           (df_matriculas : list linha_matriculas) : list linha_mesclada :=
  map (fun p : linha_categorias * option linha_matriculas =>
         {| mg_categorias := fst p;
            mg_total_matriculas := option_map mat_total_matriculas (snd p);
            mg_total_turmas := option_map mat_total_turmas (snd p) |})
      (Sql.left_join (fun c m => cat_entidade_id c =? mat_entidade_id m)
                     df_categorias df_matriculas).

(** [fillna(0)] on one cell. *)
Definition fillna_0 (v : option Z) : Z :=
  match v with Some z => z | None => 0 end.

(** [fillna(0, inplace=True)] followed by the two column assignments. The
    columns of the left frame hold no NaN, so [fillna] changes the two right
    columns only. *)
Definition derivar (r : linha_mesclada) : linha_completa :=
  let c := mg_categorias r in
  {| categorias := c;
     total_matriculas := fillna_0 (mg_total_matriculas r);
     total_turmas := fillna_0 (mg_total_turmas r);
     percentual_formula := percentual (formula_personalizada c) (total_criterios c);
     percentual_grupo := percentual (criterio_grupo c) (total_criterios c) |}.

Definition montar_df_completo (df_categorias : list linha_categorias)
           (df_matriculas : list linha_matriculas) : list linha_completa :=
  map derivar (pd_merge_left df_categorias df_matriculas).

(** ** Filters of the sidebar *)

Definition isin (nomes : list string) (r : linha_completa) : bool :=
  if in_dec string_dec (nome_entidade r) nomes then true else false.

(** [if entidades_selecionadas: df_filtrado = df_filtrado[...isin(...)]] *)
Definition filtrar_entidades (entidades_selecionadas : list string)
           (df : list linha_completa) : list linha_completa :=
  match entidades_selecionadas with
  | [] => df
  | _ :: _ => filter (isin entidades_selecionadas) df
  end.

Definition aplicar_filtros (entidades_selecionadas : list string)
           (min_matriculas min_criterios : Z)
           (df_completo : list linha_completa) : list linha_completa :=
  let df_filtrado := df_completo in
  let df_filtrado := filtrar_entidades entidades_selecionadas df_filtrado in
  let df_filtrado :=
    filter (fun r => total_matriculas r >=? min_matriculas) df_filtrado in
  let df_filtrado :=
    filter (fun r => total_criterios (categorias r) >=? min_criterios)
           df_filtrado in
  df_filtrado.

(** ** Percentages of the summary

    [(parte / total * 100).round(1) if total > 0 else 0]: a float64, or the
    integer [0] of the [else] branch. *)

Inductive numero :=
| Inteiro (z : Z)
| Flutuante (f : Float64.float).

Definition perc_resumo (parte total : Z) : numero :=
  if total >? 0 then Flutuante (percentual parte total) else Inteiro 0.

Definition soma (col : linha_completa -> Z) (df : list linha_completa) : Z :=
  fold_right (fun r acc => col r + acc) 0 df.

(** ** Streamlit calls and Python exceptions

    A run of the script is the list of Streamlit elements it emits, in order,
    together with its outcome: a value, or the exception that ended it. *)

(** An instance of [Exception]; [str_e] is what [f"{e}"] prints. *)
Record excecao := { str_e : string }.

Inductive chamada :=
| st_error (mensagem : string)
| st_code (corpo : string)
| st_success (n_entidades : nat)
| st_sidebar_info (n_entidades : nat)
| st_metric (rotulo : string) (valor : Z) (perc : option numero)
| st_dataframe (linhas : list linha_completa)
| st_download_button (linhas : list linha_completa).

Definition UI (A : Type) : Type := (list chamada * (excecao + A))%type.

Definition ret {A : Type} (a : A) : UI A := ([], inr a).

Definition raise {A : Type} (e : excecao) : UI A := ([], inl e).

Definition emit (c : chamada) : UI unit := ([c], inr tt).

Definition bind {A B : Type} (m : UI A) (k : A -> UI B) : UI B :=
  match m with
  | (out, inl e) => (out, inl e)
  | (out, inr a) => let (out', r) := k a in (out ++ out', r)
  end.

(** [try: m  except Exception as e: h e] *)
Definition try_except {A : Type} (m : UI A) (h : excecao -> UI A) : UI A :=
  match m with
  | (out, inl e) => let (out', r) := h e in (out ++ out', r)
  | (out, inr a) => (out, inr a)
  end.

Declare Scope ui_scope.
Delimit Scope ui_scope with ui.
Notation "x <- m ;; k" := (bind m (fun x => k))
  (at level 61, m at next level, right associativity) : ui_scope.
Notation "m ;; k" := (bind m (fun _ => k))
  (at level 61, right associativity) : ui_scope.
Local Open Scope ui_scope.

(** ** [executar_consulta] *)

(** What the script cannot see: whether [create_engine] gives a connection,
    and which query texts the database refuses. *)
Record ambiente := {
  criar_engine : excecao + banco;
  falha_sql : string -> option excecao
}.

(** A query: its text, and the rows it selects when it runs. *)
Record consulta (R : Type) := {
  texto_sql : string;
  selecionar : banco -> list R
}.
Arguments texto_sql {R}.
Arguments selecionar {R}.

Definition get_connection (amb : ambiente) : UI banco :=
  match criar_engine amb with
  | inl e => raise e
  | inr conn => ret conn
  end.

Definition pd_read_sql {R : Type} (amb : ambiente) (query : consulta R)
           (conn : banco) : UI (list R) :=
  match falha_sql amb (texto_sql query) with
  | Some e => raise e
  | None => ret (selecionar query conn)
  end.

Definition executar_consulta {R : Type} (amb : ambiente) (query : consulta R)
  : UI (option (list R)) :=
  try_except
    (conn <- get_connection amb ;;
     df <- pd_read_sql amb query conn ;;
     ret (Some df))
    (fun e =>
       emit (st_error ("Erro ao executar consulta: " ++ str_e e)) ;;
       emit (st_code (texto_sql query)) ;;
       ret None).

Definition query_categorias : consulta linha_categorias :=
  {| texto_sql := "
    SELECT 
        e.id AS entidade_id,
        e.nome AS nome_entidade,
        
        -- Total de critérios
        COUNT(DISTINCT ca.id) AS total_criterios,
        
        -- Critérios com fórmula personalizada
        SUM(CASE WHEN ca.formula_personalizada IS NOT NULL THEN 1 ELSE 0 END) AS formula_personalizada,
        
        -- Critérios de grupo
        SUM(CASE WHEN ca.criterio_calculo_grupo_id IS NOT NULL AND ca.possui_criterios_grupos = true THEN 1 ELSE 0 END) AS criterio_grupo,
        
        -- Critérios de grupo com recuperação paralela
        SUM(CASE WHEN ca.criterio_calculo_grupo_id IS NOT NULL 
                  AND ca.possui_criterios_grupos = true 
                  AND ca.possui_recuperacao_paralela = true THEN 1 ELSE 0 END) AS grupo_rec_paralela,
        
        -- Critérios de grupo com recuperação semestral
        SUM(CASE WHEN ca.criterio_calculo_grupo_id IS NOT NULL 
                  AND ca.possui_criterios_grupos = true 
                  AND ca.possui_recuperacao_semestral = true THEN 1 ELSE 0 END) AS grupo_rec_semestral,
        
        -- Critérios com fórmula personalizada com recuperação paralela
        SUM(CASE WHEN ca.formula_personalizada IS NOT NULL 
                  AND ca.possui_recuperacao_paralela = true THEN 1 ELSE 0 END) AS formula_rec_paralela,
        
        -- Critérios com fórmula personalizada com recuperação semestral
        SUM(CASE WHEN ca.formula_personalizada IS NOT NULL 
                  AND ca.possui_recuperacao_semestral = true THEN 1 ELSE 0 END) AS formula_rec_semestral
        
    FROM 
        entidades e
    LEFT JOIN 
        criterios_avaliativos ca ON ca.entidade_id = e.id
    GROUP BY 
        e.id, e.nome
    HAVING 
        COUNT(DISTINCT ca.id) > 0
    ORDER BY 
        total_criterios DESC
    ";
     selecionar := consulta_categorias |}.

Definition query_matriculas : consulta linha_matriculas :=
  {| texto_sql := "
    SELECT 
        e.id AS entidade_id,
        e.nome AS nome_entidade,
        COUNT(DISTINCT m.id) AS total_matriculas,
        COUNT(DISTINCT t.id) AS total_turmas
    FROM 
        entidades e
    LEFT JOIN 
        turmas t ON t.entidade_id = e.id
    LEFT JOIN 
        matriculas m ON m.turma_id = t.id
    GROUP BY 
        e.id, e.nome
    ORDER BY 
        total_matriculas DESC
    ";
     selecionar := consulta_matriculas |}.

Definition carregar_dados_categorias (amb : ambiente)
  : UI (option (list linha_categorias)) :=
  executar_consulta amb query_categorias.

Definition carregar_dados_matriculas (amb : ambiente)
  : UI (option (list linha_matriculas)) :=
  executar_consulta amb query_matriculas.

(** ** The script body *)

Inductive opcao_ordenacao :=
| OrdTotalCriterios
| OrdTotalMatriculas
| OrdFormulasPersonalizadas
| OrdCriteriosGrupo.

Definition coluna_de (o : opcao_ordenacao) : linha_completa -> Z :=
  match o with
  | OrdTotalCriterios => fun r => total_criterios (categorias r)
  | OrdTotalMatriculas => total_matriculas
  | OrdFormulasPersonalizadas => fun r => formula_personalizada (categorias r)
  | OrdCriteriosGrupo => fun r => criterio_grupo (categorias r)
  end.

(** What the user has set in the widgets of this run; the widgets themselves
    belong to Streamlit and are read as inputs. *)
Record widgets := {
  w_entidades_selecionadas : list string;
  w_min_matriculas : Z;
  w_min_criterios : Z;
  w_coluna_ordenacao : opcao_ordenacao
}.

(** [int(serie.max())]: the maximum of an empty column is NaN, and [int]
    refuses it. *)
Definition int_max (serie : list Z) : UI Z :=
  match serie with
  | [] => raise {| str_e := "cannot convert float NaN to integer" |}
  | x :: xs => ret (fold_right Z.max x xs)
  end.

(** The metrics of "Resumo por Categoria". *)
Definition resumo (df_filtrado : list linha_completa) : UI unit :=
  let total_criterios := soma (fun r => total_criterios (categorias r)) df_filtrado in
  let total_formula := soma (fun r => formula_personalizada (categorias r)) df_filtrado in
  let total_grupo := soma (fun r => criterio_grupo (categorias r)) df_filtrado in
  let total_grupo_paralela := soma (fun r => grupo_rec_paralela (categorias r)) df_filtrado in
  let total_grupo_semestral := soma (fun r => grupo_rec_semestral (categorias r)) df_filtrado in
  let total_formula_paralela := soma (fun r => formula_rec_paralela (categorias r)) df_filtrado in
  let total_formula_semestral := soma (fun r => formula_rec_semestral (categorias r)) df_filtrado in
  emit (st_metric "Total de Critérios" total_criterios None) ;;
  emit (st_metric "Com Fórmula Personalizada" total_formula
          (Some (perc_resumo total_formula total_criterios))) ;;
  emit (st_metric "Critérios de Grupo" total_grupo
          (Some (perc_resumo total_grupo total_criterios))) ;;
  emit (st_metric "Grupo com Rec. Paralela" total_grupo_paralela
          (Some (perc_resumo total_grupo_paralela total_grupo))) ;;
  emit (st_metric "Grupo com Rec. Semestral" total_grupo_semestral
          (Some (perc_resumo total_grupo_semestral total_grupo))) ;;
  emit (st_metric "Fórmula com Rec. Paralela" total_formula_paralela
          (Some (perc_resumo total_formula_paralela total_formula))) ;;
  emit (st_metric "Fórmula com Rec. Semestral" total_formula_semestral
          (Some (perc_resumo total_formula_semestral total_formula))) ;;
  emit (st_metric "Total de Matrículas" (soma total_matriculas df_filtrado) None) ;;
  emit (st_metric "Total de Turmas" (soma total_turmas df_filtrado) None).

(** The branch taken when both frames are there. The charts and the two
    per-tab views read [df_filtrado] and are drawn by plotly; they are not
    part of this model. *)
Definition analisar (w : widgets) (df_categorias : list linha_categorias)
           (df_matriculas : list linha_matriculas) : UI unit :=
  let df_completo := montar_df_completo df_categorias df_matriculas in
  emit (st_success (List.length df_completo)) ;;
  _ <- int_max (map total_matriculas df_completo) ;;
  _ <- int_max (map (fun r => total_criterios (categorias r)) df_completo) ;;
  let df_filtrado :=
    aplicar_filtros (w_entidades_selecionadas w) (w_min_matriculas w)
                    (w_min_criterios w) df_completo in
  emit (st_sidebar_info (List.length df_filtrado)) ;;
  resumo df_filtrado ;;
  let df_display :=
    Sql.order_by_desc (coluna_de (w_coluna_ordenacao w)) df_filtrado in
  emit (st_dataframe df_display) ;;
  emit (st_download_button df_display).

Definition msg_sem_dados : string :=
  "Não foi possível carregar os dados necessários para a análise.".

(** [if df_categorias is not None and df_matriculas is not None: ... else:
    st.error(...)] *)
Definition renderizar (w : widgets)
           (df_categorias : option (list linha_categorias))
           (df_matriculas : option (list linha_matriculas)) : UI unit :=
  match df_categorias, df_matriculas with
  | Some c, Some m => analisar w c m
  | _, _ => emit (st_error msg_sem_dados)
  end.

Definition script (amb : ambiente) (w : widgets) : UI unit :=
  df_categorias <- carregar_dados_categorias amb ;;
  df_matriculas <- carregar_dados_matriculas amb ;;
  renderizar w df_categorias df_matriculas.

(** ** The views drawn from [df_filtrado]

    What the tabs hand to plotly and to [st.dataframe]: each view is computed
    from the shared [df_filtrado], which none of them changes. *)

(** [df.sort_values(coluna, ascending=False).head(num_entidades)]; the slider
    gives [num_entidades] between 5 and 100. *)
Definition top (coluna : linha_completa -> Z) (num_entidades : nat)
           (df : list linha_completa) : list linha_completa :=
  firstn num_entidades (Sql.order_by_desc coluna df).

Definition df_top_matriculas (num_entidades : nat)
           (df_filtrado : list linha_completa) : list linha_completa :=
  top total_matriculas num_entidades df_filtrado.

(** The options of "Selecione a categoria para análise detalhada". *)
Inductive categoria :=
| FormulaPersonalizada
| CriteriosDeGrupo
| GrupoComRecuperacaoParalela
| GrupoComRecuperacaoSemestral
| FormulaComRecuperacaoParalela
| FormulaComRecuperacaoSemestral.

(** [mapa_categorias[categoria_selecionada]], as the column it names. *)
Definition mapa_categorias (c : categoria) : linha_completa -> Z :=
  match c with
  | FormulaPersonalizada => fun r => formula_personalizada (categorias r)
  | CriteriosDeGrupo => fun r => criterio_grupo (categorias r)
  | GrupoComRecuperacaoParalela => fun r => grupo_rec_paralela (categorias r)
  | GrupoComRecuperacaoSemestral => fun r => grupo_rec_semestral (categorias r)
  | FormulaComRecuperacaoParalela => fun r => formula_rec_paralela (categorias r)
  | FormulaComRecuperacaoSemestral => fun r => formula_rec_semestral (categorias r)
  end.

Definition df_top_categoria (categoria_selecionada : categoria)
           (num_entidades : nat) (df_filtrado : list linha_completa)
  : list linha_completa :=
  top (mapa_categorias categoria_selecionada) num_entidades df_filtrado.

(** [df_filtrado[df_filtrado[coluna_categoria] > 0]], the frame of the
    scatter plot. *)
Definition com_categoria (categoria_selecionada : categoria)
           (df_filtrado : list linha_completa) : list linha_completa :=
  filter (fun r => mapa_categorias categoria_selecionada r >? 0) df_filtrado.

Definition df_categoria (categoria_selecionada : categoria)
           (df_filtrado : list linha_completa) : list linha_completa :=
  Sql.order_by_desc (mapa_categorias categoria_selecionada)
                    (com_categoria categoria_selecionada df_filtrado).

(** A row of [df_display_cat]: five columns of [df_categoria] and the
    percentage added to them. *)
Record linha_display_cat := {
  dc_nome_entidade : string;
  dc_total_criterios : Z;
  dc_coluna_categoria : Z;
  dc_total_matriculas : Z;
  dc_total_turmas : Z;
  dc_percentual : Float64.float
}.

Definition df_display_cat (categoria_selecionada : categoria)
           (df_filtrado : list linha_completa) : list linha_display_cat :=
  map (fun r =>
         {| dc_nome_entidade := nome_entidade r;
            dc_total_criterios := total_criterios (categorias r);
            dc_coluna_categoria := mapa_categorias categoria_selecionada r;
            dc_total_matriculas := total_matriculas r;
            dc_total_turmas := total_turmas r;
            dc_percentual :=
              percentual (mapa_categorias categoria_selecionada r)
                         (total_criterios (categorias r)) |})
      (df_categoria categoria_selecionada df_filtrado).

(** [dados_pizza]: the seven slices, from the totals of the summary. *)
Definition dados_pizza (df_filtrado : list linha_completa)
  : list (string * Z) :=
  let total_criterios := soma (fun r => total_criterios (categorias r)) df_filtrado in
  let total_formula := soma (fun r => formula_personalizada (categorias r)) df_filtrado in
  let total_grupo := soma (fun r => criterio_grupo (categorias r)) df_filtrado in
  let total_grupo_paralela := soma (fun r => grupo_rec_paralela (categorias r)) df_filtrado in
  let total_grupo_semestral := soma (fun r => grupo_rec_semestral (categorias r)) df_filtrado in
  let total_formula_paralela := soma (fun r => formula_rec_paralela (categorias r)) df_filtrado in
  let total_formula_semestral := soma (fun r => formula_rec_semestral (categorias r)) df_filtrado in
  [ ("Fórmula Personalizada com Rec. Paralela", total_formula_paralela);
    ("Fórmula Personalizada com Rec. Semestral", total_formula_semestral);
    ("Fórmula Personalizada (outros)",
     total_formula - total_formula_paralela - total_formula_semestral);
    ("Critério de Grupo com Rec. Paralela", total_grupo_paralela);
    ("Critério de Grupo com Rec. Semestral", total_grupo_semestral);
    ("Critério de Grupo (outros)",
     total_grupo - total_grupo_paralela - total_grupo_semestral);
    ("Outros Critérios", total_criterios - total_formula - total_grupo) ]%string.

(** [df_pizza[df_pizza['Quantidade'] > 0]] *)
Definition df_pizza (df_filtrado : list linha_completa) : list (string * Z) :=
  filter (fun fatia => snd fatia >? 0) (dados_pizza df_filtrado).

(** [df.iloc[0]]: the first row, or [IndexError] on an empty frame. *)
Definition iloc_0 {A : Type} (df : list A) : UI A :=
  match df with
  | [] => raise {| str_e := "single positional indexer is out-of-bounds" |}
  | x :: _ => ret x
  end.

(** The six values of the radar and bar charts of one entity. *)
Definition valores (df_entidade : linha_completa) : list Z :=
  [ formula_personalizada (categorias df_entidade);
    formula_rec_paralela (categorias df_entidade);
    formula_rec_semestral (categorias df_entidade);
    criterio_grupo (categorias df_entidade);
    grupo_rec_paralela (categorias df_entidade);
    grupo_rec_semestral (categorias df_entidade) ].

(** What the third tab shows: the detail of one entity, or the note that asks
    for a selection. *)
Inductive aba_entidade :=
| Detalhe (df_entidade : linha_completa) (valores : list Z)
| SelecionePeloMenosUma.

(** [if len(df_filtrado) > 1: ... df_filtrado[df_filtrado['nome_entidade']
    == entidade_analise].iloc[0] ... else: st.info(...)]; the select box
    offers the names of [df_filtrado], and [entidade_analise] is the one
    chosen. *)
Definition analise_por_entidade (entidade_analise : string)
           (df_filtrado : list linha_completa) : UI aba_entidade :=
  if (1 <? List.length df_filtrado)%nat then
    df_entidade <-
      iloc_0 (filter (fun r => String.eqb (nome_entidade r) entidade_analise)
                     df_filtrado) ;;
    ret (Detalhe df_entidade (valores df_entidade))
  else ret SelecionePeloMenosUma.

(** * Vocabulary of the statements *)

(** ** Schema constraints

    [id] is the primary key of [entidades] and of [criterios_avaliativos]. *)

Definition chave_primaria_entidades (db : banco) : Prop :=
  NoDup (map e_id (entidades db)).

Definition chave_primaria_criterios (db : banco) : Prop :=
  NoDup (map ca_id (criterios_avaliativos db)).

(** ** Keys and groups *)

Definition chave_entidade (e : entidade) : chave := (e_id e, e_nome e).

(** The entity has at least one criterion. *)
Definition tem_criterio (db : banco) (e : entidade) : bool :=
  existsb (fun ca => ca_entidade_id ca =? e_id e) (criterios_avaliativos db).

Definition chave_grupo {A : Type} (g : chave * list A) : chave := fst g.

Definition chave_linha (r : linha_categorias) : chave :=
  (cat_entidade_id r, cat_nome_entidade r).

Definition grupo_categorias (db : banco) (k : chave) : list linha_ca :=
  filter (Sql.same_key chave_dec chave_ca k) (juncao_categorias db).

(** The criterion ids of a list of joined rows, NULLs left out. *)
Definition ids_criterios (rows : list linha_ca) : list Z :=
  Sql.non_null (map col_ca_id rows).

(** ** Filters *)

(** The three conditions of the sidebar as one predicate on a row. *)
Definition passa_filtros (entidades_selecionadas : list string)
           (min_matriculas min_criterios : Z) (r : linha_completa) : bool :=
  match entidades_selecionadas with
  | [] => true
  | _ :: _ => isin entidades_selecionadas r
  end
  && (total_matriculas r >=? min_matriculas)
  && (total_criterios (categorias r) >=? min_criterios).

(** What the executor emits is made of its two error reports only. *)
Definition relato_de_erro (c : chamada) : bool :=
  match c with
  | st_error _ | st_code _ => true
  | _ => false
  end.

(** ** Percentages *)

(** A row the aggregate never produces: an entity with no criterion. *)
Definition linha_sem_criterios : linha_categorias :=
  {| cat_entidade_id := 2;
     cat_nome_entidade := "B";
     total_criterios := 0;
     formula_personalizada := 0;
     criterio_grupo := 0;
     grupo_rec_paralela := 0;
     grupo_rec_semestral := 0;
     formula_rec_paralela := 0;
     formula_rec_semestral := 0 |}.

Definition igual (x y : Float64.float) : bool :=
  match x, y with
  | S754_zero a, S754_zero b => Bool.eqb a b
  | S754_infinity a, S754_infinity b => Bool.eqb a b
  | S754_nan, S754_nan => true
  | S754_finite a m e, S754_finite b m' e' =>
      Bool.eqb a b && Pos.eqb m m' && (e =? e')
  | _, _ => false
  end.

(** [k] tenths is the float64 nearest to [k / 10]. *)
Definition decimos (k : Z) : Float64.float :=
  Float64.div (Float64.of_Z k) (Float64.of_Z 10).

Definition um_decimal (parte total : Z) : bool :=
  let q := 1000 * parte / total in
  existsb (fun k =>
             igual (percentual parte total) (decimos k)
             && (2 * Z.abs (k * total - 1000 * parte) <=? total))
          [q; q + 1].

Definition pares (n : nat) : list (nat * nat) :=
  flat_map (fun t => map (fun p => (p, t)) (seq 0 (S t))) (seq 1 n).

(** ** A worked scenario

    Entity A has 10 criteria, 4 of them with a custom formula, and 50
    enrollments in 2 classes; entity B has no criterion. *)

Definition faixa (n : nat) : list Z := map Z.of_nat (seq 1 n).

Definition criterio_de_A (i : Z) : criterio_avaliativo :=
  {| ca_id := i;
     ca_entidade_id := 1;
     ca_formula_personalizada := if i <=? 4 then Some "(n1 + n2) / 2"%string
                                 else None;
     ca_criterio_calculo_grupo_id := if 8 <=? i then Some 7 else None;
     ca_possui_criterios_grupos := if 8 <=? i then Some true else None;
     ca_possui_recuperacao_paralela := Some (Z.even i);
     ca_possui_recuperacao_semestral := Some false |}.

Definition cenario : banco :=
  {| entidades := [ {| e_id := 1; e_nome := "A" |};
                    {| e_id := 2; e_nome := "B" |} ];
     criterios_avaliativos := map criterio_de_A (faixa 10);
     turmas := [ {| t_id := 1; t_entidade_id := 1 |};
                 {| t_id := 2; t_entidade_id := 1 |} ];
     matriculas := map (fun i => {| m_id := i;
                                    m_turma_id := if i <=? 25 then 1 else 2 |})
                       (faixa 50) |}.

Definition linha_A : linha_categorias :=
  {| cat_entidade_id := 1;
     cat_nome_entidade := "A";
     total_criterios := 10;
     formula_personalizada := 4;
     criterio_grupo := 3;
     grupo_rec_paralela := 2;
     grupo_rec_semestral := 0;
     formula_rec_paralela := 2;
     formula_rec_semestral := 0 |}.

Definition linha_B_matriculas : linha_matriculas :=
  {| mat_entidade_id := 2; mat_nome_entidade := "B";
     mat_total_matriculas := 7; mat_total_turmas := 1 |}.

Definition widgets_padrao : widgets :=
  {| w_entidades_selecionadas := [];
     w_min_matriculas := 0;
     w_min_criterios := 1;
     w_coluna_ordenacao := OrdTotalCriterios |}.

(** A database that refuses every query. *)
Definition ambiente_fora_do_ar : ambiente :=
  {| criar_engine := inr cenario;
     falha_sql := fun _ => Some {| str_e := "connection refused" |} |}.

(** ** What the aggregates count

    The ids a count ranges over, read from the tables by the entity's [id]. *)

Definition ids_criterios_de (db : banco) (id : Z) : list (option Z) :=
  map (fun ca => Some (ca_id ca))
      (filter (fun ca => ca_entidade_id ca =? id) (criterios_avaliativos db)).

Definition ids_turmas_de (db : banco) (id : Z) : list (option Z) :=
  map (fun t => Some (t_id t))
      (filter (fun t => t_entidade_id t =? id) (turmas db)).

(** The enrollments in a class of the entity. *)
Definition matricula_de (db : banco) (id : Z) (m : matricula) : bool :=
  existsb (fun t => (t_entidade_id t =? id) && (m_turma_id m =? t_id t))
          (turmas db).

Definition ids_matriculas_de (db : banco) (id : Z) : list (option Z) :=
  map (fun m => Some (m_id m)) (filter (matricula_de db id) (matriculas db)).

(** The number of criteria of the entity that satisfy [p]. *)
Definition conta_criterios (db : banco) (id : Z)
           (p : criterio_avaliativo -> bool) : Z :=
  Z.of_nat (List.length
              (filter (fun ca => (ca_entidade_id ca =? id) && p ca)
                      (criterios_avaliativos db))).

Definition nao_nulo {V : Type} (v : option V) : bool :=
  match v with Some _ => true | None => false end.

(** A nullable flag that is set: NULL counts as not set. *)
Definition marcado (b : option bool) : bool :=
  match b with Some true => true | _ => false end.

Definition chave_linha_matriculas (r : linha_matriculas) : chave :=
  (mat_entidade_id r, mat_nome_entidade r).

Definition grupo_matriculas (db : banco) (k : chave) : list linha_mt :=
  filter (Sql.same_key chave_dec chave_mt k) (juncao_matriculas db).

(** The merged table as the script builds it from the database. *)
Definition df_completo_de (db : banco) : list linha_completa :=
  montar_df_completo (consulta_categorias db) (consulta_matriculas db).


Definition soma_fatias (fatias : list (string * Z)) : Z :=
  fold_right (fun fatia acc => snd fatia + acc) 0 fatias.

(** ** Environments of a run *)

(** A database that answers every query. *)
Definition ambiente_no_ar (db : banco) : ambiente :=
  {| criar_engine := inr db; falha_sql := fun _ => None |}.

Definition banco_vazio : banco :=
  {| entidades := []; criterios_avaliativos := [];
     turmas := []; matriculas := [] |}.

Definition linha_A_matriculas : linha_matriculas :=
  {| mat_entidade_id := 1; mat_nome_entidade := "A";
     mat_total_matriculas := 50; mat_total_turmas := 2 |}.

(** * Properties *)

(** ** Facts about the relational operators *)

Module SqlFacts.
Import Sql.

Section Join.
Context {A B : Type}.
Variable on : A -> B -> bool.

Lemma in_left_join_some (l : list A) (r : list B) (a : A) (b : B) :
  In (a, Some b) (left_join on l r) <-> In a l /\ In b r /\ on a b = true.
Proof.
  unfold left_join. rewrite in_flat_map. split.
  - intros [a' [Ha' Hin]].
    destruct (filter (on a') r) as [|b0 ms] eqn:E.
    + simpl in Hin. destruct Hin as [Hin | []]. discriminate.
    + rewrite <- E in Hin. apply in_map_iff in Hin.
      destruct Hin as [b' [Heq Hb']]. inversion Heq; subst.
      apply filter_In in Hb'. tauto.
  - intros [Ha [Hb Hon]]. exists a. split; [assumption|].
    assert (Hf : In b (filter (on a) r)) by (apply filter_In; tauto).
    destruct (filter (on a) r) as [|b0 ms] eqn:E; [contradiction|].
    apply (in_map (fun b' => (a, Some b'))). exact Hf.
Qed.

Lemma in_left_join_none (l : list A) (r : list B) (a : A) :
  In (a, None) (left_join on l r) <->
  In a l /\ forall b, In b r -> on a b = false.
Proof.
  unfold left_join. rewrite in_flat_map. split.
  - intros [a' [Ha' Hin]].
    destruct (filter (on a') r) as [|b0 ms] eqn:E.
    + simpl in Hin. destruct Hin as [Hin | []]. inversion Hin; subst.
      split; [assumption|]. intros b Hb.
      destruct (on a b) eqn:Hon; [|reflexivity].
      assert (Hf : In b (filter (on a) r)) by (apply filter_In; tauto).
      rewrite E in Hf. contradiction.
    + apply in_map_iff in Hin. destruct Hin as [b' [Heq _]]. discriminate.
  - intros [Ha Hall]. exists a. split; [assumption|].
    destruct (filter (on a) r) as [|b0 ms] eqn:E.
    + left. reflexivity.
    + assert (Hf : In b0 (filter (on a) r)) by (rewrite E; left; reflexivity).
      apply filter_In in Hf. destruct Hf as [Hb0 Hon].
      rewrite (Hall b0 Hb0) in Hon. discriminate.
Qed.

Lemma in_left_join_fst (l : list A) (r : list B) (p : A * option B) :
  In p (left_join on l r) -> In (fst p) l.
Proof.
  destruct p as [a [b|]]; simpl.
  - intros H. apply in_left_join_some in H. tauto.
  - intros H. apply in_left_join_none in H. tauto.
Qed.

(** When every left row has at most one match, the join keeps the left rows
    as they are: none dropped, none repeated, same order. *)
Lemma map_fst_left_join (l : list A) (r : list B) :
  (forall a, In a l -> (List.length (filter (on a) r) <= 1)%nat) ->
  map fst (left_join on l r) = l.
Proof.
  unfold left_join. induction l as [|a l IH]; intros H; [reflexivity|].
  cbn [flat_map]. rewrite map_app, IH by (intros; apply H; right; assumption).
  assert (Ha := H a (or_introl eq_refl)).
  destruct (filter (on a) r) as [|b0 [|b1 ms]]; simpl in *; try reflexivity.
  lia.
Qed.
End Join.

Section Keys.
Context {B : Type}.
Variable key : B -> Z.

(** A column without repeated values matches a given value at most once. *)
Lemma filter_key_unique (k : Z) (r : list B) :
  NoDup (map key r) ->
  (List.length (filter (fun b => (k =? key b)%Z) r) <= 1)%nat.
Proof.
  induction r as [|b r IH]; simpl; intros Hnd; [lia|].
  inversion Hnd as [|? ? Hnotin Hnd']; subst.
  destruct (Z.eqb_spec k (key b)) as [Heq|Hne].
  - assert (Hnil : filter (fun b0 => k =? key b0) r = []).
    { destruct (filter (fun b0 => k =? key b0) r) as [|b' ms] eqn:E;
        [reflexivity|].
      assert (Hf : In b' (filter (fun b0 => k =? key b0) r))
        by (rewrite E; left; reflexivity).
      apply filter_In in Hf. destruct Hf as [Hin Hk].
      apply Z.eqb_eq in Hk. exfalso. apply Hnotin.
      rewrite <- Heq, Hk. apply in_map. exact Hin. }
    rewrite Hnil. simpl. lia.
  - apply IH. exact Hnd'.
Qed.
End Keys.

Section Group.
Context {A K : Type}.
Variable K_dec : forall x y : K, {x = y} + {x <> y}.
Variable key : A -> K.

Lemma same_key_true (k : K) (a : A) :
  same_key K_dec key k a = true <-> key a = k.
Proof. unfold same_key. destruct (K_dec (key a) k); split; congruence. Qed.

Lemma map_fst_group_by (rows : list A) :
  map fst (group_by K_dec key rows) = nodup K_dec (map key rows).
Proof.
  unfold group_by. rewrite map_map. simpl. apply map_id.
Qed.

Lemma in_group_by (rows : list A) (k : K) (g : list A) :
  In (k, g) (group_by K_dec key rows) <->
  In k (map key rows) /\ g = filter (same_key K_dec key k) rows.
Proof.
  unfold group_by. rewrite in_map_iff. split.
  - intros [k' [Heq Hin]]. inversion Heq; subst.
    apply nodup_In in Hin. tauto.
  - intros [Hin ->]. exists k. split; [reflexivity|].
    apply nodup_In. exact Hin.
Qed.
End Group.

Section Order.
Context {A : Type}.
Variable key : A -> Z.

Lemma insert_desc_perm (a : A) (l : list A) :
  Permutation (insert_desc key a l) (a :: l).
Proof.
  induction l as [|b l IH]; simpl; [reflexivity|].
  destruct (key b <? key a); [reflexivity|].
  rewrite IH. apply perm_swap.
Qed.

Lemma order_by_desc_perm (l : list A) :
  Permutation (order_by_desc key l) l.
Proof.
  induction l as [|a l IH]; simpl; [reflexivity|].
  rewrite insert_desc_perm. constructor. exact IH.
Qed.

Lemma in_order_by_desc (l : list A) (a : A) :
  In a (order_by_desc key l) <-> In a l.
Proof.
  split; apply Permutation_in;
    [|apply Permutation_sym]; apply order_by_desc_perm.
Qed.

Lemma insert_desc_sorted (a : A) (l : list A) :
  StronglySorted (desc key) l -> StronglySorted (desc key) (insert_desc key a l).
Proof.
  induction 1 as [|b l Hs IH Hall]; simpl.
  - constructor; constructor.
  - destruct (Z.ltb_spec (key b) (key a)) as [Hlt|Hge].
    + constructor; [constructor; assumption|].
      constructor; [unfold desc; lia|].
      eapply Forall_impl; [|exact Hall]. unfold desc. intros; lia.
    + constructor; [exact IH|].
      eapply Permutation_Forall;
        [apply Permutation_sym, insert_desc_perm|].
      constructor; [unfold desc; lia | exact Hall].
Qed.

Lemma order_by_desc_sorted (l : list A) :
  StronglySorted (desc key) (order_by_desc key l).
Proof.
  induction l as [|a l IH]; simpl; [constructor|].
  apply insert_desc_sorted. exact IH.
Qed.
End Order.

Lemma sum_case_mono {A : Type} (c1 c2 : A -> bool) (rows : list A) :
  (forall a, c1 a = true -> c2 a = true) ->
  sum_case c1 rows <= sum_case c2 rows.
Proof.
  intros H. induction rows as [|a rows IH]; simpl; [lia|].
  specialize (H a). destruct (c1 a), (c2 a); lia.
Qed.

Lemma sum_case_nonneg {A : Type} (c : A -> bool) (rows : list A) :
  0 <= sum_case c rows.
Proof.
  induction rows as [|a rows IH]; simpl; [lia|]. destruct (c a); lia.
Qed.

(** A [SUM(CASE ...)] whose condition needs [x] not NULL counts at most the
    rows where [x] is not NULL. *)
Lemma sum_case_le_non_null {A V : Type} (c : A -> bool) (x : A -> option V)
      (rows : list A) :
  (forall a, c a = true -> x a <> None) ->
  sum_case c rows <= Z.of_nat (List.length (non_null (map x rows))).
Proof.
  intros H. induction rows as [|a rows IH]; simpl; [lia|].
  specialize (H a). destruct (c a) eqn:Hc, (x a) eqn:Hx; cbn [non_null].
  - cbn [List.length]. rewrite Nat2Z.inj_succ. lia.
  - exfalso. apply H; reflexivity.
  - cbn [List.length]. rewrite Nat2Z.inj_succ. lia.
  - lia.
Qed.

Lemma in_non_null {V : Type} (xs : list (option V)) (v : V) :
  In v (non_null xs) <-> In (Some v) xs.
Proof.
  induction xs as [|[w|] xs IH]; simpl.
  - tauto.
  - rewrite IH. split; intros [H|H]; auto; left; congruence.
  - rewrite IH. split; [auto|]. intros [H|H]; [discriminate|assumption].
Qed.

Lemma non_null_app {V : Type} (xs ys : list (option V)) :
  non_null (xs ++ ys) = non_null xs ++ non_null ys.
Proof.
  induction xs as [|[w|] xs IH]; simpl; congruence.
Qed.

Lemma count_distinct_pos (xs : list (option Z)) :
  0 < count_distinct xs <-> exists v, In (Some v) xs.
Proof.
  unfold count_distinct. split.
  - intros H. destruct (nodup Z.eq_dec (non_null xs)) as [|v l] eqn:E;
      [simpl in H; lia|].
    exists v. apply in_non_null. apply (nodup_In Z.eq_dec).
    rewrite E. left. reflexivity.
  - intros [v Hv]. apply in_non_null in Hv.
    apply (nodup_In Z.eq_dec) in Hv.
    destruct (nodup Z.eq_dec (non_null xs)); [contradiction|simpl; lia].
Qed.

End SqlFacts.

(** ** Facts about lists used below *)

Lemma NoDup_map_In_inj {A B : Type} (f : A -> B) (l : list A) (x y : A) :
  NoDup (map f l) -> In x l -> In y l -> f x = f y -> x = y.
Proof.
  induction l as [|a l IH]; simpl; intros Hnd Hx Hy Heq; [contradiction|].
  inversion Hnd as [|? ? Hnotin Hnd']; subst.
  destruct Hx as [->|Hx], Hy as [->|Hy]; auto.
  - exfalso. apply Hnotin. rewrite Heq. apply in_map. exact Hy.
  - exfalso. apply Hnotin. rewrite <- Heq. apply in_map. exact Hx.
Qed.

(** Dropping rows keeps a column free of repeated values. *)
Lemma NoDup_map_filter {A B : Type} (coluna : A -> B) (manter : A -> bool)
      (linhas : list A) (Hnd : NoDup (map coluna linhas)) :
  NoDup (map coluna (filter manter linhas)).
Proof.
  induction linhas as [|a linhas IH]; simpl; [constructor|].
  inversion Hnd as [|? ? Hnotin Hnd']; subst.
  destruct (manter a); simpl; auto.
  constructor; auto.
  intros Hin. apply Hnotin. apply in_map_iff in Hin.
  destruct Hin as [x [Hfx Hx]]. apply filter_In in Hx.
  rewrite <- Hfx. apply in_map. tauto.
Qed.

Lemma filter_filter {A : Type} (p q : A -> bool) (l : list A) :
  filter q (filter p l) = filter (fun a => p a && q a) l.
Proof.
  induction l as [|a l IH]; simpl; [reflexivity|].
  destruct (p a); simpl; [destruct (q a)|]; congruence.
Qed.

Lemma filter_length_impl {A : Type} (p q : A -> bool) (l : list A) :
  (forall a, In a l -> p a = true -> q a = true) ->
  (List.length (filter p l) <= List.length (filter q l))%nat.
Proof.
  induction l as [|a l IH]; simpl; intros H; [lia|].
  assert (IH' := IH (fun b Hb => H b (or_intror Hb))).
  assert (Ha := H a (or_introl eq_refl)).
  destruct (p a), (q a); simpl; lia.
Qed.

(** ** Keys *)

Lemma chave_entidade_NoDup (ents : list entidade) :
  NoDup (map e_id ents) -> NoDup (map chave_entidade ents).
Proof.
  intros H. apply NoDup_map_NoDup_ForallPairs.
  - intros a b Ha Hb Heq. apply (NoDup_map_In_inj e_id ents); auto.
    unfold chave_entidade in Heq. congruence.
  - eapply NoDup_map_inv. exact H.
Qed.

(** Keys built from a table whose [id] is a key are told apart by the [id]
    alone. *)
Lemma NoDup_fst_chaves (ents : list entidade) (ks : list chave) :
  NoDup (map e_id ents) ->
  (forall k, In k ks -> exists e, In e ents /\ chave_entidade e = k) ->
  NoDup ks ->
  NoDup (map fst ks).
Proof.
  intros Hpk Hks Hnd. apply NoDup_map_NoDup_ForallPairs; [|exact Hnd].
  intros k1 k2 H1 H2 Heq.
  destruct (Hks k1 H1) as [x1 [Hx1 <-]].
  destruct (Hks k2 H2) as [x2 [Hx2 <-]].
  f_equal. apply (NoDup_map_In_inj e_id ents); auto.
Qed.

(** ** The enrollment aggregate has one row per entity *)

Lemma juncao_matriculas_entidade (db : banco) (r : linha_mt) :
  In r (juncao_matriculas db) -> In (fst (fst r)) (entidades db).
Proof.
  intros H. unfold juncao_matriculas in H.
  apply SqlFacts.in_left_join_fst in H.
  apply SqlFacts.in_left_join_fst in H. exact H.
Qed.

Lemma consulta_matriculas_ids (db : banco) :
  chave_primaria_entidades db ->
  NoDup (map mat_entidade_id (consulta_matriculas db)).
Proof.
  intros Hpk. unfold consulta_matriculas.
  eapply Permutation_NoDup.
  { apply Permutation_map, Permutation_sym, SqlFacts.order_by_desc_perm. }
  rewrite map_map.
  rewrite (map_ext _ (fun g => fst (chave_grupo g)))
    by reflexivity.
  rewrite <- (map_map chave_grupo fst). unfold chave_grupo.
  rewrite SqlFacts.map_fst_group_by.
  apply (NoDup_fst_chaves (entidades db)); [exact Hpk | | apply NoDup_nodup].
  intros k Hk. apply nodup_In in Hk. apply in_map_iff in Hk.
  destruct Hk as [r [Hr Hin]].
  exists (fst (fst r)). split; [|exact Hr].
  apply juncao_matriculas_entidade. exact Hin.
Qed.

(** ** The merge and the derived columns *)

Lemma in_montar_df_completo (dfc : list linha_categorias)
      (dfm : list linha_matriculas) (r : linha_completa) :
  In r (montar_df_completo dfc dfm) <->
  exists c om,
    In (c, om) (Sql.left_join
                  (fun c m => cat_entidade_id c =? mat_entidade_id m) dfc dfm)
    /\ r = derivar {| mg_categorias := c;
                      mg_total_matriculas := option_map mat_total_matriculas om;
                      mg_total_turmas := option_map mat_total_turmas om |}.
Proof.
  unfold montar_df_completo, pd_merge_left. rewrite map_map, in_map_iff.
  split.
  - intros [[c om] [Heq Hin]]. exists c, om. split; [exact Hin|].
    symmetry. exact Heq.
  - intros [c [om [Hin ->]]]. exists (c, om). split; [reflexivity|exact Hin].
Qed.

Lemma categorias_montar_df_completo (dfc : list linha_categorias)
      (dfm : list linha_matriculas) (r : linha_completa) :
  In r (montar_df_completo dfc dfm) -> In (categorias r) dfc.
Proof.
  intros H. apply in_montar_df_completo in H.
  destruct H as [c [om [Hin ->]]]. simpl.
  apply SqlFacts.in_left_join_fst in Hin. exact Hin.
Qed.

Lemma map_categorias_montar (dfc : list linha_categorias)
      (dfm : list linha_matriculas) :
  NoDup (map mat_entidade_id dfm) ->
  map categorias (montar_df_completo dfc dfm) = dfc.
Proof.
  intros Hnd. unfold montar_df_completo, pd_merge_left.
  rewrite !map_map. simpl.
  change (fun x : linha_categorias * option linha_matriculas => fst x)
    with (@fst linha_categorias (option linha_matriculas)).
  apply SqlFacts.map_fst_left_join.
  intros c _. apply (SqlFacts.filter_key_unique mat_entidade_id). exact Hnd.
Qed.

(** ** Zero fill (C2) *)

(** C2. An entity of the criteria aggregate with no row of its
    [entidade_id] in the enrollment aggregate still has its row in the merged
    table, and every merged row of that entity carries
    [total_matriculas = 0] and [total_turmas = 0]. *)
Theorem merge_preenche_com_zero
        (dfc : list linha_categorias) (dfm : list linha_matriculas)
        (c : linha_categorias) :
  In c dfc ->
  (forall m, In m dfm -> mat_entidade_id m <> cat_entidade_id c) ->
  (exists r, In r (montar_df_completo dfc dfm) /\ categorias r = c) /\
  (forall r, In r (montar_df_completo dfc dfm) -> categorias r = c ->
             total_matriculas r = 0 /\ total_turmas r = 0).
Proof.
  intros Hc Hnone.
  assert (Hoff : forall m, In m dfm ->
                   (cat_entidade_id c =? mat_entidade_id m) = false).
  { intros m Hm. apply Z.eqb_neq. intros Heq. apply (Hnone m Hm). auto. }
  split.
  - exists (derivar {| mg_categorias := c;
                       mg_total_matriculas := None;
                       mg_total_turmas := None |}).
    split; [|reflexivity].
    apply in_montar_df_completo. exists c, None. split; [|reflexivity].
    apply SqlFacts.in_left_join_none. auto.
  - intros r Hr Hcat. apply in_montar_df_completo in Hr.
    destruct Hr as [c' [om [Hin ->]]]. simpl in Hcat. subst c'.
    destruct om as [m|]; [|split; reflexivity].
    apply SqlFacts.in_left_join_some in Hin. destruct Hin as [_ [Hm Hon]].
    rewrite (Hoff m Hm) in Hon. discriminate.
Qed.

(** ** The left merge keeps the criteria rows (C10) *)

(** C10. The enrollment aggregate has at most one row per [entidade_id], so
    the left merge neither drops nor repeats a criteria row: read back on its
    criteria columns, the merged table is the criteria aggregate, row for
    row. *)
Theorem merge_preserva_linhas (db : banco) :
  chave_primaria_entidades db ->
  NoDup (map mat_entidade_id (consulta_matriculas db)) /\
  map categorias
      (montar_df_completo (consulta_categorias db) (consulta_matriculas db))
  = consulta_categorias db /\
  List.length
    (montar_df_completo (consulta_categorias db) (consulta_matriculas db))
  = List.length (consulta_categorias db).
Proof.
  intros Hpk.
  assert (Hnd := consulta_matriculas_ids db Hpk).
  assert (Hmap := map_categorias_montar (consulta_categorias db) _ Hnd).
  repeat split; try assumption.
  rewrite <- Hmap at 2. symmetry. apply length_map.
Qed.

(** ** Filters (C4, C5) *)

Lemma isin_true (nomes : list string) (r : linha_completa) :
  isin nomes r = true <-> In (nome_entidade r) nomes.
Proof.
  unfold isin. destruct (in_dec string_dec (nome_entidade r) nomes);
    split; auto; discriminate.
Qed.

Lemma aplicar_filtros_passa (sel : list string) (mm mc : Z)
      (df : list linha_completa) :
  aplicar_filtros sel mm mc df = filter (passa_filtros sel mm mc) df.
Proof.
  unfold aplicar_filtros, passa_filtros, filtrar_entidades.
  destruct sel as [|s sel].
  - rewrite filter_filter. reflexivity.
  - rewrite !filter_filter. apply filter_ext. intros r.
    apply andb_assoc.
Qed.

Lemma passa_filtros_true (sel : list string) (mm mc : Z) (r : linha_completa) :
  passa_filtros sel mm mc r = true <->
  (sel <> [] -> In (nome_entidade r) sel) /\
  mm <= total_matriculas r /\
  mc <= total_criterios (categorias r).
Proof.
  unfold passa_filtros. rewrite !andb_true_iff, !Z.geb_le.
  destruct sel as [|s sel].
  - intuition congruence.
  - rewrite isin_true. intuition congruence.
Qed.

(** C4. The name restriction is applied only for a non-empty selection, then
    the enrollment cutoff, then the criteria cutoff; a row is in the result
    exactly when it is in the merged table and meets the name membership (for
    a non-empty selection) and both inclusive thresholds, and the result is
    the merged table with the other rows removed, so no such row is
    dropped. *)
Theorem aplicar_filtros_correto (sel : list string) (mm mc : Z)
        (df : list linha_completa) :
  aplicar_filtros sel mm mc df
  = filter (fun r => total_criterios (categorias r) >=? mc)
      (filter (fun r => total_matriculas r >=? mm)
         (filtrar_entidades sel df)) /\
  filtrar_entidades sel df
  = match sel with [] => df | _ :: _ => filter (isin sel) df end /\
  (forall r, In r (aplicar_filtros sel mm mc df) <->
             In r df /\
             (sel <> [] -> In (nome_entidade r) sel) /\
             mm <= total_matriculas r /\
             mc <= total_criterios (categorias r)) /\
  aplicar_filtros sel mm mc df = filter (passa_filtros sel mm mc) df.
Proof.
  split; [|split; [|split]].
  - reflexivity.
  - reflexivity.
  - intros r. rewrite aplicar_filtros_passa, filter_In, passa_filtros_true.
    reflexivity.
  - apply aplicar_filtros_passa.
Qed.

(** C5. For a fixed name selection, raising the enrollment threshold or the
    criteria threshold never adds rows: the filtered table does not grow. *)
Theorem aplicar_filtros_monotono (sel : list string) (mm mm' mc mc' : Z)
        (df : list linha_completa) :
  mm <= mm' -> mc <= mc' ->
  (List.length (aplicar_filtros sel mm' mc' df)
   <= List.length (aplicar_filtros sel mm mc df))%nat.
Proof.
  intros Hm Hc. rewrite !aplicar_filtros_passa.
  apply filter_length_impl. intros r _.
  rewrite !passa_filtros_true. intuition lia.
Qed.

(** ** The criteria aggregate (C6, C7) *)

Lemma chave_linha_agregar (g : chave * list linha_ca) :
  chave_linha (agregar_categorias g) = fst g.
Proof. destruct g as [[i n] rows]. reflexivity. Qed.

Lemma in_consulta_categorias (db : banco) (r : linha_categorias) :
  In r (consulta_categorias db) <->
  exists k, In k (map chave_ca (juncao_categorias db)) /\
            r = agregar_categorias (k, grupo_categorias db k) /\
            0 < total_criterios r.
Proof.
  unfold consulta_categorias.
  rewrite SqlFacts.in_order_by_desc, filter_In, in_map_iff. split.
  - intros [[[k g] [Hr Hin]] Hpos]. apply SqlFacts.in_group_by in Hin.
    destruct Hin as [Hk ->]. exists k. apply Z.gtb_lt in Hpos. auto.
  - intros [k [Hk [Hr Hpos]]]. split; [|apply Z.gtb_lt; exact Hpos].
    exists (k, grupo_categorias db k). split; [auto|].
    apply SqlFacts.in_group_by. auto.
Qed.

Lemma in_juncao_categorias_some (db : banco) (e : entidade)
      (ca : criterio_avaliativo) :
  In (e, Some ca) (juncao_categorias db) <->
  In e (entidades db) /\ In ca (criterios_avaliativos db) /\
  ca_entidade_id ca = e_id e.
Proof.
  unfold juncao_categorias. rewrite SqlFacts.in_left_join_some, Z.eqb_eq.
  reflexivity.
Qed.

(** A group counts at least one criterion exactly when an entity of its key
    has one. *)
Lemma total_criterios_pos (db : banco) (k : chave) :
  0 < total_criterios (agregar_categorias (k, grupo_categorias db k)) <->
  exists e, In e (entidades db) /\ chave_entidade e = k /\
            tem_criterio db e = true.
Proof.
  simpl. rewrite SqlFacts.count_distinct_pos. unfold tem_criterio. split.
  - intros [v Hv]. apply in_map_iff in Hv. destruct Hv as [[e oca] [Hid Hin]].
    destruct oca as [ca|]; [|discriminate].
    apply filter_In in Hin. destruct Hin as [Hin Hk].
    apply SqlFacts.same_key_true in Hk.
    apply in_juncao_categorias_some in Hin. destruct Hin as [He [Hca Hon]].
    exists e. repeat split; auto.
    apply existsb_exists. exists ca. split; [exact Hca|].
    apply Z.eqb_eq. exact Hon.
  - intros [e [He [Hk Hex]]]. apply existsb_exists in Hex.
    destruct Hex as [ca [Hca Hon]]. apply Z.eqb_eq in Hon.
    exists (ca_id ca). apply in_map_iff. exists (e, Some ca).
    split; [reflexivity|]. apply filter_In. split.
    + apply in_juncao_categorias_some. auto.
    + apply SqlFacts.same_key_true. exact Hk.
Qed.

Lemma in_chaves_juncao_categorias (db : banco) (k : chave) :
  In k (map chave_ca (juncao_categorias db)) <->
  exists e, In e (entidades db) /\ chave_entidade e = k.
Proof.
  rewrite in_map_iff. split.
  - intros [r [Hk Hin]]. exists (fst r). split; [|exact Hk].
    eapply SqlFacts.in_left_join_fst. exact Hin.
  - intros [e [He Hk]].
    destruct (existsb (fun ca => ca_entidade_id ca =? e_id e)
                      (criterios_avaliativos db)) eqn:Hex.
    + apply existsb_exists in Hex. destruct Hex as [ca [Hca Hon]].
      exists (e, Some ca). split; [exact Hk|].
      apply SqlFacts.in_left_join_some. auto.
    + exists (e, None). split; [exact Hk|].
      apply SqlFacts.in_left_join_none. split; [exact He|].
      intros ca Hca. destruct (ca_entidade_id ca =? e_id e) eqn:Hon;
        [|reflexivity].
      assert (Ht : existsb (fun ca => ca_entidade_id ca =? e_id e)
                           (criterios_avaliativos db) = true)
        by (apply existsb_exists; eauto).
      congruence.
Qed.

Lemma chaves_consulta_categorias_NoDup (db : banco) :
  NoDup (map chave_linha (consulta_categorias db)).
Proof.
  unfold consulta_categorias.
  eapply Permutation_NoDup.
  { apply Permutation_map, Permutation_sym, SqlFacts.order_by_desc_perm. }
  apply NoDup_map_filter. rewrite map_map.
  rewrite (map_ext _ (@chave_grupo linha_ca))
    by (intros g; apply chave_linha_agregar).
  unfold chave_grupo.
  rewrite (SqlFacts.map_fst_group_by chave_dec chave_ca).
  apply NoDup_nodup.
Qed.

(** C6. With [id] the key of [entidades], the criteria aggregate has exactly
    one row for each entity that has at least one criterion and no row for any
    other entity; every row counts at least one criterion; and the rows come
    in descending order of [total_criterios]. *)
Theorem consulta_categorias_uma_linha_por_entidade (db : banco) :
  chave_primaria_entidades db ->
  Permutation (map chave_linha (consulta_categorias db))
              (map chave_entidade
                   (filter (tem_criterio db) (entidades db))) /\
  (forall e, In e (entidades db) -> tem_criterio db e = false ->
             ~ In (e_id e) (map cat_entidade_id (consulta_categorias db))) /\
  (forall r, In r (consulta_categorias db) -> 1 <= total_criterios r) /\
  StronglySorted (fun a b => total_criterios b <= total_criterios a)
                 (consulta_categorias db).
Proof.
  intros Hpk.
  assert (Hmem : forall k,
             In k (map chave_linha (consulta_categorias db)) <->
             In k (map chave_entidade
                       (filter (tem_criterio db) (entidades db)))).
  { intros k. rewrite !in_map_iff. split.
    - intros [r [Hk Hr]]. apply in_consulta_categorias in Hr.
      destruct Hr as [k' [_ [Hr Hpos]]]. subst r.
      rewrite chave_linha_agregar in Hk. simpl in Hk. subst k'.
      apply total_criterios_pos in Hpos.
      destruct Hpos as [e [He [Hk Hex]]].
      exists e. split; [exact Hk|]. apply filter_In. auto.
    - intros [e [Hk He]]. apply filter_In in He. destruct He as [He Hex].
      exists (agregar_categorias (k, grupo_categorias db k)).
      split; [apply chave_linha_agregar|].
      apply in_consulta_categorias. exists k. split; [|split; [reflexivity|]].
      + apply in_chaves_juncao_categorias. eauto.
      + apply total_criterios_pos. eauto. }
  split; [|split; [|split]].
  - apply NoDup_Permutation.
    + apply chaves_consulta_categorias_NoDup.
    + apply chave_entidade_NoDup.
      apply NoDup_map_filter. exact Hpk.
    + exact Hmem.
  - intros e He Hex Hin. apply in_map_iff in Hin.
    destruct Hin as [r [Hid Hr]].
    assert (Hk : In (chave_linha r)
                    (map chave_entidade
                         (filter (tem_criterio db) (entidades db))))
      by (apply Hmem, in_map; exact Hr).
    apply in_map_iff in Hk. destruct Hk as [e' [Hk He']].
    apply filter_In in He'. destruct He' as [He' Hex'].
    assert (e' = e).
    { apply (NoDup_map_In_inj e_id (entidades db)); auto.
      unfold chave_entidade, chave_linha in Hk. congruence. }
    congruence.
  - intros r Hr. apply in_consulta_categorias in Hr.
    destruct Hr as [_ [_ [_ Hpos]]]. lia.
  - apply (SqlFacts.order_by_desc_sorted total_criterios).
Qed.

Lemma in_ids_criterios (rows : list linha_ca) (v : Z) :
  In v (ids_criterios rows) <->
  exists e ca, In (e, Some ca) rows /\ ca_id ca = v.
Proof.
  unfold ids_criterios. rewrite SqlFacts.in_non_null, in_map_iff. split.
  - intros [[e [ca|]] [Hid Hin]]; [|discriminate].
    exists e, ca. split; [exact Hin|].
    unfold col_ca_id in Hid. cbn [snd] in Hid. congruence.
  - intros [e [ca [Hin Hid]]]. exists (e, Some ca).
    split; [|exact Hin]. unfold col_ca_id. cbn [snd]. congruence.
Qed.

Lemma ids_criterios_app (xs ys : list linha_ca) :
  ids_criterios (xs ++ ys) = ids_criterios xs ++ ids_criterios ys.
Proof. unfold ids_criterios. rewrite map_app. apply SqlFacts.non_null_app. Qed.

Lemma ids_criterios_filter_NoDup (p : linha_ca -> bool) (rows : list linha_ca) :
  NoDup (ids_criterios rows) -> NoDup (ids_criterios (filter p rows)).
Proof.
  induction rows as [|[e [ca|]] rows IH]; simpl; intros Hnd.
  - constructor.
  - inversion Hnd as [|? ? Hnotin Hnd']; subst.
    destruct (p (e, Some ca)); [|apply IH; exact Hnd'].
    change (NoDup (ca_id ca :: ids_criterios (filter p rows))).
    constructor; [|apply IH; exact Hnd'].
    intros Hin. apply Hnotin. apply in_ids_criterios in Hin.
    destruct Hin as [e' [ca' [Hin Hid]]]. apply filter_In in Hin.
    apply in_ids_criterios. exists e', ca'. tauto.
  - destruct (p (e, None)); apply IH; exact Hnd.
Qed.

Lemma ids_criterios_some (e : entidade) (ms : list criterio_avaliativo) :
  ids_criterios (map (fun ca => (e, Some ca)) ms) = map ca_id ms.
Proof.
  induction ms as [|ca ms IH]; [reflexivity|].
  change (ca_id ca :: ids_criterios (map (fun ca => (e, Some ca)) ms)
          = ca_id ca :: map ca_id ms).
  f_equal. exact IH.
Qed.

(** With both keys in place, no criterion appears twice in the rows joined to
    a list of entities. *)
Lemma ids_criterios_juncao_NoDup (ents : list entidade)
      (crit : list criterio_avaliativo) :
  NoDup (map e_id ents) -> NoDup (map ca_id crit) ->
  NoDup (ids_criterios
           (Sql.left_join (fun e ca => ca_entidade_id ca =? e_id e)
                          ents crit)).
Proof.
  intros Hents Hcrit. induction ents as [|e ents IH].
  - constructor.
  - inversion Hents as [|? ? Hnotin Hents']; subst.
    unfold Sql.left_join. cbn [flat_map]. rewrite ids_criterios_app.
    apply NoDup_app.
    + destruct (filter (fun ca => ca_entidade_id ca =? e_id e) crit)
        as [|c0 ms] eqn:E; [constructor|].
      rewrite ids_criterios_some, <- E.
      apply NoDup_map_filter. exact Hcrit.
    + apply IH. exact Hents'.
    + intros v Hv Hv'.
      assert (H1 : exists ca, In ca crit /\ ca_entidade_id ca = e_id e
                              /\ ca_id ca = v).
      { destruct (filter (fun ca => ca_entidade_id ca =? e_id e) crit)
          as [|c0 ms] eqn:E; [contradiction|].
        rewrite ids_criterios_some, <- E in Hv. apply in_map_iff in Hv.
        destruct Hv as [ca [Hid Hin]]. apply filter_In in Hin.
        destruct Hin as [Hin Hon]. apply Z.eqb_eq in Hon. eauto. }
      destruct H1 as [ca [Hca [Hon Hid]]].
      apply in_ids_criterios in Hv'. destruct Hv' as [e' [ca' [Hin Hid']]].
      apply SqlFacts.in_left_join_some in Hin.
      destruct Hin as [He' [Hca' Hon']]. apply Z.eqb_eq in Hon'.
      assert (ca = ca')
        by (apply (NoDup_map_In_inj ca_id crit); auto; congruence).
      subst ca'. apply Hnotin. rewrite <- Hon, Hon'. apply in_map. exact He'.
Qed.

(** In a group, [COUNT(DISTINCT ca.id)] is then the number of rows that carry
    a criterion. *)
Lemma total_criterios_grupo (db : banco) (k : chave) :
  chave_primaria_entidades db -> chave_primaria_criterios db ->
  total_criterios (agregar_categorias (k, grupo_categorias db k))
  = Z.of_nat (List.length (ids_criterios (grupo_categorias db k))).
Proof.
  intros He Hc. simpl. unfold Sql.count_distinct.
  fold (ids_criterios (grupo_categorias db k)).
  rewrite nodup_fixed_point; [reflexivity|].
  apply ids_criterios_filter_NoDup.
  apply ids_criterios_juncao_NoDup; assumption.
Qed.

(** Each counted condition fails on the NULL padding of the join. *)
Lemma cond_formula_non_null (r : linha_ca) :
  cond_formula r = true -> col_ca_id r <> None.
Proof. destruct r as [e [ca|]]; [discriminate | discriminate]. Qed.

Lemma cond_grupo_non_null (r : linha_ca) :
  cond_grupo r = true -> col_ca_id r <> None.
Proof. destruct r as [e [ca|]]; [discriminate | discriminate]. Qed.

Lemma cond_grupo_rec_paralela_grupo (r : linha_ca) :
  cond_grupo_rec_paralela r = true -> cond_grupo r = true.
Proof.
  unfold cond_grupo_rec_paralela, cond_grupo.
  destruct (Sql.and3 (tem_grupo_id r)
                     (Sql.eq_true (col ca_possui_criterios_grupos r)))
    as [[|]|],
    (Sql.eq_true (col ca_possui_recuperacao_paralela r)) as [[|]|];
    simpl; congruence.
Qed.

Lemma cond_grupo_rec_semestral_grupo (r : linha_ca) :
  cond_grupo_rec_semestral r = true -> cond_grupo r = true.
Proof.
  unfold cond_grupo_rec_semestral, cond_grupo.
  destruct (Sql.and3 (tem_grupo_id r)
                     (Sql.eq_true (col ca_possui_criterios_grupos r)))
    as [[|]|],
    (Sql.eq_true (col ca_possui_recuperacao_semestral r)) as [[|]|];
    simpl; congruence.
Qed.

Lemma cond_formula_rec_paralela_formula (r : linha_ca) :
  cond_formula_rec_paralela r = true -> cond_formula r = true.
Proof.
  unfold cond_formula_rec_paralela, cond_formula.
  destruct (tem_formula r) as [[|]|],
    (Sql.eq_true (col ca_possui_recuperacao_paralela r)) as [[|]|];
    simpl; congruence.
Qed.

Lemma cond_formula_rec_semestral_formula (r : linha_ca) :
  cond_formula_rec_semestral r = true -> cond_formula r = true.
Proof.
  unfold cond_formula_rec_semestral, cond_formula.
  destruct (tem_formula r) as [[|]|],
    (Sql.eq_true (col ca_possui_recuperacao_semestral r)) as [[|]|];
    simpl; congruence.
Qed.

(** C7. With [id] the key of both tables, every row of the criteria aggregate
    has each of its six sub-counts at most [total_criterios], the two group
    recovery counts at most [criterio_grupo], and the two formula recovery
    counts at most [formula_personalizada]. *)
Theorem subcontagens_limitadas (db : banco) (r : linha_categorias) :
  chave_primaria_entidades db -> chave_primaria_criterios db ->
  In r (consulta_categorias db) ->
  (formula_personalizada r <= total_criterios r /\
   criterio_grupo r <= total_criterios r /\
   grupo_rec_paralela r <= total_criterios r /\
   grupo_rec_semestral r <= total_criterios r /\
   formula_rec_paralela r <= total_criterios r /\
   formula_rec_semestral r <= total_criterios r) /\
  (grupo_rec_paralela r <= criterio_grupo r /\
   grupo_rec_semestral r <= criterio_grupo r) /\
  (formula_rec_paralela r <= formula_personalizada r /\
   formula_rec_semestral r <= formula_personalizada r).
Proof.
  intros He Hc Hr. apply in_consulta_categorias in Hr.
  destruct Hr as [k [_ [-> _]]].
  assert (Htot := total_criterios_grupo db k He Hc).
  set (g := grupo_categorias db k) in *.
  assert (Hf : formula_personalizada (agregar_categorias (k, g))
               <= total_criterios (agregar_categorias (k, g))).
  { rewrite Htot. apply SqlFacts.sum_case_le_non_null.
    apply cond_formula_non_null. }
  assert (Hg : criterio_grupo (agregar_categorias (k, g))
               <= total_criterios (agregar_categorias (k, g))).
  { rewrite Htot. apply SqlFacts.sum_case_le_non_null.
    apply cond_grupo_non_null. }
  assert (Hgp : grupo_rec_paralela (agregar_categorias (k, g))
                <= criterio_grupo (agregar_categorias (k, g)))
    by (apply SqlFacts.sum_case_mono, cond_grupo_rec_paralela_grupo).
  assert (Hgs : grupo_rec_semestral (agregar_categorias (k, g))
                <= criterio_grupo (agregar_categorias (k, g)))
    by (apply SqlFacts.sum_case_mono, cond_grupo_rec_semestral_grupo).
  assert (Hfp : formula_rec_paralela (agregar_categorias (k, g))
                <= formula_personalizada (agregar_categorias (k, g)))
    by (apply SqlFacts.sum_case_mono, cond_formula_rec_paralela_formula).
  assert (Hfs : formula_rec_semestral (agregar_categorias (k, g))
                <= formula_personalizada (agregar_categorias (k, g)))
    by (apply SqlFacts.sum_case_mono, cond_formula_rec_semestral_formula).
  repeat split; lia.
Qed.

(** The key constraints are what the bounds rest on: were a criterion id
    repeated, [COUNT(DISTINCT ca.id)] would count it once and the sums
    twice. *)
Example subcontagens_id_repetido :
  consulta_categorias
    {| entidades := [ {| e_id := 1; e_nome := "A" |} ];
       criterios_avaliativos := [ criterio_de_A 1; criterio_de_A 1 ];
       turmas := [];
       matriculas := [] |}
  = [ {| cat_entidade_id := 1;
         cat_nome_entidade := "A";
         total_criterios := 1;
         formula_personalizada := 2;
         criterio_grupo := 0;
         grupo_rec_paralela := 0;
         grupo_rec_semestral := 0;
         formula_rec_paralela := 0;
         formula_rec_semestral := 0 |} ].
Proof. vm_compute. reflexivity. Qed.

(** ** The derived percentages (C1, C3) *)

Lemma of_Z_0 : Float64.of_Z 0 = S754_zero false.
Proof. reflexivity. Qed.

Lemma of_Z_10 : Float64.of_Z 10 = S754_finite false 5629499534213120 (-49).
Proof. vm_compute. reflexivity. Qed.

Lemma of_Z_100 : Float64.of_Z 100 = S754_finite false 7036874417766400 (-46).
Proof. vm_compute. reflexivity. Qed.

(** Dividing by a zero denominator never gives a number: the unguarded
    formula ends in NaN (0/0) or in an infinity (n/0). *)
Lemma percentual_denominador_zero (parte : Z) :
  Float64.is_nan (percentual parte 0) = true \/
  Float64.is_infinity (percentual parte 0) = true.
Proof.
  unfold percentual, Float64.round_1.
  rewrite of_Z_0, of_Z_10, of_Z_100.
  destruct (Float64.of_Z parte) as [s|s| |s m e].
  - left. reflexivity.
  - right. reflexivity.
  - left. reflexivity.
  - right. reflexivity.
Qed.

(** C1, refuted as stated: merged from a criteria row with
    [total_criterios = 0], the two percentages are NaN, not 0; with a
    non-zero numerator over 0 the formula gives an infinity. *)
Lemma percentual_sem_guarda :
  map (fun r => (total_criterios (categorias r),
                 percentual_formula r, percentual_grupo r))
      (montar_df_completo [linha_sem_criterios] [])
  = [(0, S754_nan, S754_nan)] /\
  S754_nan <> Float64.of_Z 0 /\
  percentual 3 0 = S754_infinity false.
Proof.
  split; [vm_compute; reflexivity|].
  split; [discriminate | vm_compute; reflexivity].
Qed.

(** C1, as the code has it: every row merged from the two aggregates has
    [total_criterios >= 1], so the two per-row percentages, which are
    computed without a guard, never divide by zero; over a zero denominator
    the unguarded formula gives NaN or an infinity; the percentages of the
    summary carry the guard and are 0 when their denominator is not
    positive. *)
Theorem percentual_denominador_positivo (db : banco) :
  (forall r,
      In r (montar_df_completo (consulta_categorias db)
                               (consulta_matriculas db)) ->
      1 <= total_criterios (categorias r) /\
      percentual_formula r
      = percentual (formula_personalizada (categorias r))
                   (total_criterios (categorias r)) /\
      percentual_grupo r
      = percentual (criterio_grupo (categorias r))
                   (total_criterios (categorias r))) /\
  (forall parte,
      Float64.is_nan (percentual parte 0) = true \/
      Float64.is_infinity (percentual parte 0) = true) /\
  (forall parte total, total <= 0 -> perc_resumo parte total = Inteiro 0).
Proof.
  split; [|split].
  - intros r Hr. split.
    + apply categorias_montar_df_completo in Hr.
      apply in_consulta_categorias in Hr.
      destruct Hr as [_ [_ [_ Hpos]]]. lia.
    + apply in_montar_df_completo in Hr.
      destruct Hr as [c [om [_ ->]]]. split; reflexivity.
  - apply percentual_denominador_zero.
  - intros parte total Hle. unfold perc_resumo.
    destruct (Z.gtb_spec total 0); [lia | reflexivity].
Qed.

(** *** What "rounded to one decimal" means, checked up to 100 criteria *)

Lemma igual_eq (x y : Float64.float) : igual x y = true -> x = y.
Proof.
  destruct x as [a|a| |a m e], y as [b|b| |b m' e']; simpl; try discriminate.
  - intros H. apply Bool.eqb_prop in H. congruence.
  - intros H. apply Bool.eqb_prop in H. congruence.
  - reflexivity.
  - rewrite !andb_true_iff. intros [[H1 H2] H3].
    apply Bool.eqb_prop in H1. apply Pos.eqb_eq in H2. apply Z.eqb_eq in H3.
    congruence.
Qed.

Lemma um_decimal_ate_100 :
  forallb (fun pt => um_decimal (Z.of_nat (fst pt)) (Z.of_nat (snd pt)))
          (pares 100) = true.
Proof. vm_compute. reflexivity. Qed.

(** For up to 100 criteria, the percentage is a whole number of tenths [k],
    and [k / 10] is within 0.05 of the exact [100 * parte / total]. *)
Lemma percentual_um_decimal (parte total : Z) :
  1 <= total <= 100 -> 0 <= parte <= total ->
  exists k, percentual parte total = decimos k /\
            2 * Z.abs (k * total - 1000 * parte) <= total.
Proof.
  intros Ht Hp.
  assert (Hin : In (Z.to_nat parte, Z.to_nat total) (pares 100)).
  { unfold pares. apply in_flat_map. exists (Z.to_nat total). split.
    - apply in_seq. lia.
    - apply in_map_iff. exists (Z.to_nat parte). split; [reflexivity|].
      apply in_seq. lia. }
  assert (H := um_decimal_ate_100).
  rewrite forallb_forall in H. specialize (H _ Hin). simpl in H.
  rewrite !Z2Nat.id in H by lia.
  unfold um_decimal in H. apply existsb_exists in H.
  destruct H as [k [_ Hk]]. apply andb_true_iff in Hk.
  destruct Hk as [Heq Hle]. exists k. split.
  - apply igual_eq. exact Heq.
  - apply Z.leb_le. exact Hle.
Qed.

(** C3. In every merged row, [percentual_formula] is
    [formula_personalizada / total_criterios * 100] and [percentual_grupo] is
    [criterio_grupo / total_criterios * 100], in float64 and rounded to one
    decimal; 3 of 10 gives 30.0. Up to 100 criteria the rounded value is a
    whole number of tenths within 0.05 of the exact percentage. *)
Theorem percentuais_derivados (dfc : list linha_categorias)
        (dfm : list linha_matriculas) :
  (forall r,
      In r (montar_df_completo dfc dfm) ->
      percentual_formula r
      = Float64.round_1
          (Float64.mul
             (Float64.div
                (Float64.of_Z (formula_personalizada (categorias r)))
                (Float64.of_Z (total_criterios (categorias r))))
             (Float64.of_Z 100)) /\
      percentual_grupo r
      = Float64.round_1
          (Float64.mul
             (Float64.div
                (Float64.of_Z (criterio_grupo (categorias r)))
                (Float64.of_Z (total_criterios (categorias r))))
             (Float64.of_Z 100))) /\
  percentual 3 10 = Float64.of_Z 30 /\
  (forall parte total,
      1 <= total <= 100 -> 0 <= parte <= total ->
      exists k, percentual parte total = decimos k /\
                2 * Z.abs (k * total - 1000 * parte) <= total).
Proof.
  split; [|split].
  - intros r Hr. apply in_montar_df_completo in Hr.
    destruct Hr as [c [om [_ ->]]]. split; reflexivity.
  - vm_compute. reflexivity.
  - apply percentual_um_decimal.
Qed.

(** ** The query executor (C9) *)

(** C9. When creating the connection or running the query raises [e], the
    executor reports [e] and the text of the query and returns [None]; and
    whatever the environment does, a call of the executor ends with a value,
    never with an exception. *)
Theorem executar_consulta_captura {R : Type} (amb : ambiente)
        (query : consulta R) :
  (forall e,
      criar_engine amb = inl e \/
      ((exists conn, criar_engine amb = inr conn) /\
       falha_sql amb (texto_sql query) = Some e) ->
      executar_consulta amb query
      = ([st_error ("Erro ao executar consulta: " ++ str_e e);
          st_code (texto_sql query)],
         inr None)) /\
  (exists out df, executar_consulta amb query = (out, inr df)).
Proof.
  unfold executar_consulta, get_connection, pd_read_sql. split.
  - intros e [Hc | [[conn Hc] Hq]]; rewrite Hc; simpl; [reflexivity|].
    rewrite Hq. reflexivity.
  - destruct (criar_engine amb) as [e|conn]; simpl.
    + eauto.
    + destruct (falha_sql amb (texto_sql query)) as [e|]; simpl; eauto.
Qed.

(** On success the executor emits nothing and returns the selected rows. *)
Lemma executar_consulta_sucesso {R : Type} (amb : ambiente)
      (query : consulta R) (conn : banco) :
  criar_engine amb = inr conn ->
  falha_sql amb (texto_sql query) = None ->
  executar_consulta amb query = ([], inr (Some (selecionar query conn))).
Proof.
  intros Hc Hq. unfold executar_consulta, get_connection, pd_read_sql.
  rewrite Hc. simpl. rewrite Hq. reflexivity.
Qed.

Lemma executar_consulta_saida {R : Type} (amb : ambiente)
      (query : consulta R) :
  forallb relato_de_erro (fst (executar_consulta amb query)) = true.
Proof.
  unfold executar_consulta, get_connection, pd_read_sql.
  destruct (criar_engine amb) as [e|conn]; simpl; [reflexivity|].
  destruct (falha_sql amb (texto_sql query)) as [e|]; reflexivity.
Qed.

(** ** Missing data (C8) *)

(** C8. When either frame is [None], the render is the single error
    message: no success note, no metric, no table and no download is
    emitted; and a run of the script in which a load returned [None] emits
    the executor's error reports followed by that message, and nothing
    else. *)
Theorem sem_dados_interrompe (w : widgets)
        (df_categorias : option (list linha_categorias))
        (df_matriculas : option (list linha_matriculas)) :
  df_categorias = None \/ df_matriculas = None ->
  renderizar w df_categorias df_matriculas
  = ([st_error msg_sem_dados], inr tt) /\
  (forall amb,
      snd (carregar_dados_categorias amb) = inr df_categorias ->
      snd (carregar_dados_matriculas amb) = inr df_matriculas ->
      script amb w
      = (fst (carregar_dados_categorias amb)
           ++ fst (carregar_dados_matriculas amb)
           ++ [st_error msg_sem_dados],
         inr tt) /\
      forallb relato_de_erro (fst (script amb w)) = true).
Proof.
  intros Hnone.
  assert (Hr : renderizar w df_categorias df_matriculas
               = ([st_error msg_sem_dados], inr tt)).
  { destruct Hnone as [-> | ->]; [reflexivity|].
    destruct df_categorias; reflexivity. }
  split; [exact Hr|].
  intros amb Hc Hm.
  assert (Hs : script amb w
               = (fst (carregar_dados_categorias amb)
                    ++ fst (carregar_dados_matriculas amb)
                    ++ [st_error msg_sem_dados],
                  inr tt)).
  { unfold script.
    destruct (carregar_dados_categorias amb) as [oc rc].
    destruct (carregar_dados_matriculas amb) as [om rm].
    simpl in Hc, Hm. subst rc rm. simpl. rewrite Hr. reflexivity. }
  split; [exact Hs|].
  rewrite Hs. simpl. rewrite !forallb_app.
  unfold carregar_dados_categorias, carregar_dados_matriculas.
  rewrite !executar_consulta_saida. reflexivity.
Qed.

(** ** The scenario, evaluated *)

Example consulta_categorias_cenario :
  consulta_categorias cenario = [linha_A].
Proof. vm_compute. reflexivity. Qed.

Example consulta_matriculas_cenario :
  consulta_matriculas cenario
  = [ {| mat_entidade_id := 1; mat_nome_entidade := "A";
         mat_total_matriculas := 50; mat_total_turmas := 2 |};
      {| mat_entidade_id := 2; mat_nome_entidade := "B";
         mat_total_matriculas := 0; mat_total_turmas := 0 |} ].
Proof. vm_compute. reflexivity. Qed.

(** End to end: B is absent, A has [percentual_formula = 40.0]. *)
Example df_completo_cenario :
  montar_df_completo (consulta_categorias cenario)
                     (consulta_matriculas cenario)
  = [ {| categorias := linha_A;
         total_matriculas := 50;
         total_turmas := 2;
         percentual_formula := Float64.of_Z 40;
         percentual_grupo := Float64.of_Z 30 |} ].
Proof. vm_compute. reflexivity. Qed.

Example script_fora_do_ar :
  script ambiente_fora_do_ar widgets_padrao
  = ([ st_error "Erro ao executar consulta: connection refused";
       st_code (texto_sql query_categorias);
       st_error "Erro ao executar consulta: connection refused";
       st_code (texto_sql query_matriculas);
       st_error msg_sem_dados ],
     inr tt).
Proof. reflexivity. Qed.

Lemma chave_primaria_entidades_cenario : chave_primaria_entidades cenario.
Proof.
  unfold chave_primaria_entidades. simpl.
  repeat (constructor; [simpl; intuition discriminate|]). constructor.
Qed.

Lemma chave_primaria_criterios_cenario : chave_primaria_criterios cenario.
Proof.
  unfold chave_primaria_criterios. simpl.
  repeat (constructor; [simpl; intuition discriminate|]). constructor.
Qed.

(** ** The theorems at the scenario *)

Lemma merge_preenche_com_zero_cenario :
  In linha_A [linha_A] /\
  (forall m, In m [linha_B_matriculas] ->
             mat_entidade_id m <> cat_entidade_id linha_A) /\
  (exists r, In r (montar_df_completo [linha_A] [linha_B_matriculas]) /\
             categorias r = linha_A) /\
  (forall r, In r (montar_df_completo [linha_A] [linha_B_matriculas]) ->
             categorias r = linha_A ->
             total_matriculas r = 0 /\ total_turmas r = 0).
Proof.
  assert (H1 : In linha_A [linha_A]) by (left; reflexivity).
  assert (H2 : forall m, In m [linha_B_matriculas] ->
                         mat_entidade_id m <> cat_entidade_id linha_A).
  { intros m [<- | []]. simpl. lia. }
  split; [exact H1|]. split; [exact H2|].
  exact (merge_preenche_com_zero [linha_A] [linha_B_matriculas] linha_A H1 H2).
Defined.

Lemma merge_preserva_linhas_cenario :
  chave_primaria_entidades cenario /\
  NoDup (map mat_entidade_id (consulta_matriculas cenario)) /\
  map categorias
      (montar_df_completo (consulta_categorias cenario)
                          (consulta_matriculas cenario))
  = consulta_categorias cenario /\
  List.length
    (montar_df_completo (consulta_categorias cenario)
                        (consulta_matriculas cenario))
  = List.length (consulta_categorias cenario).
Proof.
  split; [exact chave_primaria_entidades_cenario|].
  exact (merge_preserva_linhas cenario chave_primaria_entidades_cenario).
Defined.

Lemma consulta_categorias_uma_linha_por_entidade_cenario :
  chave_primaria_entidades cenario /\
  Permutation (map chave_linha (consulta_categorias cenario))
              (map chave_entidade
                   (filter (tem_criterio cenario) (entidades cenario))) /\
  (forall e, In e (entidades cenario) -> tem_criterio cenario e = false ->
             ~ In (e_id e)
                  (map cat_entidade_id (consulta_categorias cenario))) /\
  (forall r, In r (consulta_categorias cenario) -> 1 <= total_criterios r) /\
  StronglySorted (fun a b => total_criterios b <= total_criterios a)
                 (consulta_categorias cenario).
Proof.
  split; [exact chave_primaria_entidades_cenario|].
  exact (consulta_categorias_uma_linha_por_entidade
           cenario chave_primaria_entidades_cenario).
Defined.

Lemma subcontagens_limitadas_cenario :
  chave_primaria_entidades cenario /\
  chave_primaria_criterios cenario /\
  In linha_A (consulta_categorias cenario) /\
  (formula_personalizada linha_A <= total_criterios linha_A /\
   criterio_grupo linha_A <= total_criterios linha_A /\
   grupo_rec_paralela linha_A <= total_criterios linha_A /\
   grupo_rec_semestral linha_A <= total_criterios linha_A /\
   formula_rec_paralela linha_A <= total_criterios linha_A /\
   formula_rec_semestral linha_A <= total_criterios linha_A) /\
  (grupo_rec_paralela linha_A <= criterio_grupo linha_A /\
   grupo_rec_semestral linha_A <= criterio_grupo linha_A) /\
  (formula_rec_paralela linha_A <= formula_personalizada linha_A /\
   formula_rec_semestral linha_A <= formula_personalizada linha_A).
Proof.
  assert (Hin : In linha_A (consulta_categorias cenario))
    by (rewrite consulta_categorias_cenario; left; reflexivity).
  split; [exact chave_primaria_entidades_cenario|].
  split; [exact chave_primaria_criterios_cenario|].
  split; [exact Hin|].
  exact (subcontagens_limitadas cenario linha_A
           chave_primaria_entidades_cenario
           chave_primaria_criterios_cenario Hin).
Defined.

Lemma aplicar_filtros_monotono_cenario :
  0 <= 5 /\ 1 <= 2 /\
  (List.length
     (aplicar_filtros [] 5 2
        (montar_df_completo (consulta_categorias cenario)
                            (consulta_matriculas cenario)))
   <= List.length
        (aplicar_filtros [] 0 1
           (montar_df_completo (consulta_categorias cenario)
                               (consulta_matriculas cenario))))%nat.
Proof.
  assert (H1 : 0 <= 5) by lia.
  assert (H2 : 1 <= 2) by lia.
  split; [exact H1|]. split; [exact H2|].
  exact (aplicar_filtros_monotono [] 0 5 1 2 _ H1 H2).
Defined.

Lemma sem_dados_interrompe_cenario :
  (@None (list linha_categorias) = None \/
   Some (consulta_matriculas cenario) = None) /\
  renderizar widgets_padrao None (Some (consulta_matriculas cenario))
  = ([st_error msg_sem_dados], inr tt) /\
  (forall amb,
      snd (carregar_dados_categorias amb) = inr None ->
      snd (carregar_dados_matriculas amb)
      = inr (Some (consulta_matriculas cenario)) ->
      script amb widgets_padrao
      = (fst (carregar_dados_categorias amb)
           ++ fst (carregar_dados_matriculas amb)
           ++ [st_error msg_sem_dados],
         inr tt) /\
      forallb relato_de_erro (fst (script amb widgets_padrao)) = true).
Proof.
  assert (H : @None (list linha_categorias) = None \/
              Some (consulta_matriculas cenario) = None)
    by (left; reflexivity).
  split; [exact H|].
  exact (sem_dados_interrompe widgets_padrao None
           (Some (consulta_matriculas cenario)) H).
Defined.

(** * Further properties of the pipeline *)

(** ** More facts about the relational operators *)

Lemma left_join_covers {A B : Type} (on : A -> B -> bool) (l : list A)
      (r : list B) (a : A) :
  In a l -> exists ob, In (a, ob) (Sql.left_join on l r).
Proof.
  intros Ha. destruct (existsb (on a) r) eqn:Hex.
  - apply existsb_exists in Hex. destruct Hex as [b [Hb Hon]].
    exists (Some b). apply SqlFacts.in_left_join_some. auto.
  - exists None. apply SqlFacts.in_left_join_none. split; [exact Ha|].
    intros b Hb. destruct (on a b) eqn:Hon; [|reflexivity].
    assert (Ht : existsb (on a) r = true) by (apply existsb_exists; eauto).
    congruence.
Qed.

(** [COUNT(DISTINCT x)] depends on the set of values only. *)
Lemma count_distinct_ext (xs ys : list (option Z)) :
  (forall v, In (Some v) xs <-> In (Some v) ys) ->
  Sql.count_distinct xs = Sql.count_distinct ys.
Proof.
  intros H. unfold Sql.count_distinct. f_equal.
  apply Permutation_length. apply NoDup_Permutation; try apply NoDup_nodup.
  intros v. rewrite !nodup_In, !SqlFacts.in_non_null. apply H.
Qed.

Lemma count_distinct_nonneg (xs : list (option Z)) :
  0 <= Sql.count_distinct xs.
Proof. unfold Sql.count_distinct. lia. Qed.

(** ** The enrollment aggregate *)

Lemma in_consulta_matriculas (db : banco) (r : linha_matriculas) :
  In r (consulta_matriculas db) <->
  exists k, In k (map chave_mt (juncao_matriculas db)) /\
            r = agregar_matriculas (k, grupo_matriculas db k).
Proof.
  unfold consulta_matriculas.
  rewrite SqlFacts.in_order_by_desc, in_map_iff. split.
  - intros [[k g] [Hr Hin]]. apply SqlFacts.in_group_by in Hin.
    destruct Hin as [Hk ->]. exists k. auto.
  - intros [k [Hk Hr]]. exists (k, grupo_matriculas db k). split; [auto|].
    apply SqlFacts.in_group_by. auto.
Qed.

Lemma in_chaves_juncao_matriculas (db : banco) (k : chave) :
  In k (map chave_mt (juncao_matriculas db)) <->
  exists e, In e (entidades db) /\ chave_entidade e = k.
Proof.
  rewrite in_map_iff. split.
  - intros [r [Hk Hin]]. exists (fst (fst r)). split; [|exact Hk].
    apply juncao_matriculas_entidade. exact Hin.
  - intros [e [He Hk]].
    destruct (left_join_covers (fun e t => t_entidade_id t =? e_id e)
                               (entidades db) (turmas db) e He) as [ot Hot].
    destruct (left_join_covers
                (fun (et : entidade * option turma) m =>
                   match snd et with
                   | Some t => m_turma_id m =? t_id t
                   | None => false
                   end)
                _ (matriculas db) (e, ot) Hot) as [om Hom].
    exists ((e, ot), om). split; [exact Hk | exact Hom].
Qed.

Lemma in_juncao_matriculas_turma (db : banco) (e : entidade) (t : turma)
      (om : option matricula) :
  In ((e, Some t), om) (juncao_matriculas db) ->
  In e (entidades db) /\ In t (turmas db) /\ t_entidade_id t = e_id e.
Proof.
  intros H. unfold juncao_matriculas in H.
  apply SqlFacts.in_left_join_fst in H. simpl in H.
  apply SqlFacts.in_left_join_some in H. rewrite Z.eqb_eq in H. exact H.
Qed.

Lemma in_juncao_matriculas_matricula (db : banco) (e : entidade)
      (ot : option turma) (m : matricula) :
  In ((e, ot), Some m) (juncao_matriculas db) <->
  exists t, ot = Some t /\ In e (entidades db) /\ In t (turmas db) /\
            t_entidade_id t = e_id e /\
            In m (matriculas db) /\ m_turma_id m = t_id t.
Proof.
  unfold juncao_matriculas. rewrite SqlFacts.in_left_join_some. simpl. split.
  - intros [Het [Hm Hon]]. destruct ot as [t|]; [|discriminate].
    apply Z.eqb_eq in Hon. apply SqlFacts.in_left_join_some in Het.
    rewrite Z.eqb_eq in Het. exists t. tauto.
  - intros [t [-> [He [Ht [Hon [Hm Hmt]]]]]]. split; [|split].
    + apply SqlFacts.in_left_join_some. rewrite Z.eqb_eq. auto.
    + exact Hm.
    + apply Z.eqb_eq. exact Hmt.
Qed.

(** The class ids of a group are the ids of the classes of its entity. *)
Lemma turmas_do_grupo (db : banco) (k : chave) (v : Z) :
  In k (map chave_mt (juncao_matriculas db)) ->
  In (Some v) (map col_t_id (grupo_matriculas db k)) <->
  In (Some v) (ids_turmas_de db (fst k)).
Proof.
  intros Hk. apply in_chaves_juncao_matriculas in Hk.
  destruct Hk as [e0 [He0 Hk0]].
  unfold ids_turmas_de, grupo_matriculas. rewrite !in_map_iff. split.
  - intros [[[e ot] om] [Hid Hin]]. apply filter_In in Hin.
    destruct Hin as [Hin Hkey]. apply SqlFacts.same_key_true in Hkey.
    destruct ot as [t|]; [|discriminate].
    apply in_juncao_matriculas_turma in Hin. destruct Hin as [_ [Ht Hon]].
    exists t. split; [exact Hid|]. apply filter_In. split; [exact Ht|].
    apply Z.eqb_eq. rewrite Hon, <- Hkey. reflexivity.
  - intros [t [Hid Ht]]. apply filter_In in Ht. destruct Ht as [Ht Hon].
    apply Z.eqb_eq in Hon.
    assert (H1 : In (e0, Some t)
                    (Sql.left_join (fun e t => t_entidade_id t =? e_id e)
                                   (entidades db) (turmas db))).
    { apply SqlFacts.in_left_join_some. rewrite Z.eqb_eq, Hon, <- Hk0. auto. }
    destruct (left_join_covers
                (fun (et : entidade * option turma) m =>
                   match snd et with
                   | Some t => m_turma_id m =? t_id t
                   | None => false
                   end)
                _ (matriculas db) _ H1) as [om Hom].
    exists ((e0, Some t), om). split; [exact Hid|].
    apply filter_In. split; [exact Hom|].
    apply SqlFacts.same_key_true. exact Hk0.
Qed.

Lemma matricula_de_true (db : banco) (id : Z) (m : matricula) :
  matricula_de db id m = true <->
  exists t, In t (turmas db) /\ t_entidade_id t = id /\
            m_turma_id m = t_id t.
Proof.
  unfold matricula_de. rewrite existsb_exists.
  split; intros [t [Ht H]]; exists t; split; auto.
  - apply andb_true_iff in H. rewrite !Z.eqb_eq in H. exact H.
  - apply andb_true_iff. rewrite !Z.eqb_eq. exact H.
Qed.

(** The enrollment ids of a group are those of the enrollments in the classes
    of its entity. *)
Lemma matriculas_do_grupo (db : banco) (k : chave) (v : Z) :
  In k (map chave_mt (juncao_matriculas db)) ->
  In (Some v) (map col_m_id (grupo_matriculas db k)) <->
  In (Some v) (ids_matriculas_de db (fst k)).
Proof.
  intros Hk. apply in_chaves_juncao_matriculas in Hk.
  destruct Hk as [e0 [He0 Hk0]].
  unfold ids_matriculas_de, grupo_matriculas. rewrite !in_map_iff. split.
  - intros [[[e ot] om] [Hid Hin]]. apply filter_In in Hin.
    destruct Hin as [Hin Hkey]. apply SqlFacts.same_key_true in Hkey.
    destruct om as [m|]; [|discriminate].
    apply in_juncao_matriculas_matricula in Hin.
    destruct Hin as [t [_ [_ [Ht [Hon [Hm Hmt]]]]]].
    exists m. split; [exact Hid|]. apply filter_In. split; [exact Hm|].
    apply matricula_de_true. exists t. repeat split; auto.
    rewrite Hon, <- Hkey. reflexivity.
  - intros [m [Hid Hm]]. apply filter_In in Hm. destruct Hm as [Hm Hde].
    apply matricula_de_true in Hde. destruct Hde as [t [Ht [Hon Hmt]]].
    exists ((e0, Some t), Some m). split; [exact Hid|].
    apply filter_In. split.
    + apply in_juncao_matriculas_matricula. exists t.
      repeat split; auto. rewrite Hon, <- Hk0. reflexivity.
    + apply SqlFacts.same_key_true. exact Hk0.
Qed.

Lemma chave_linha_matriculas_agregar (g : chave * list linha_mt) :
  chave_linha_matriculas (agregar_matriculas g) = fst g.
Proof. destruct g as [[i n] rows]. reflexivity. Qed.

Lemma chaves_consulta_matriculas_NoDup (db : banco) :
  NoDup (map chave_linha_matriculas (consulta_matriculas db)).
Proof.
  unfold consulta_matriculas.
  eapply Permutation_NoDup.
  { apply Permutation_map, Permutation_sym, SqlFacts.order_by_desc_perm. }
  rewrite map_map.
  rewrite (map_ext _ (@chave_grupo linha_mt))
    by (intros g; apply chave_linha_matriculas_agregar).
  unfold chave_grupo.
  rewrite (SqlFacts.map_fst_group_by chave_dec chave_mt).
  apply NoDup_nodup.
Qed.

(** X1. With [id] the key of [entidades], the enrollment aggregate has
    exactly one row for every entity, the ones without any class included,
    and its rows come in descending order of [total_matriculas]. *)
Theorem consulta_matriculas_todas_entidades (db : banco) :
  chave_primaria_entidades db ->
  Permutation (map chave_linha_matriculas (consulta_matriculas db))
              (map chave_entidade (entidades db)) /\
  StronglySorted
    (fun a b => mat_total_matriculas b <= mat_total_matriculas a)
    (consulta_matriculas db).
Proof.
  intros Hpk. split.
  - apply NoDup_Permutation.
    + apply chaves_consulta_matriculas_NoDup.
    + apply chave_entidade_NoDup. exact Hpk.
    + intros k.
      assert (Hent : In k (map chave_entidade (entidades db)) <->
                     In k (map chave_mt (juncao_matriculas db))).
      { rewrite in_chaves_juncao_matriculas, in_map_iff.
        split; intros [e He]; exists e; tauto. }
      rewrite Hent, in_map_iff. split.
      * intros [r [Hk Hr]]. apply in_consulta_matriculas in Hr.
        destruct Hr as [k' [Hk' ->]].
        rewrite chave_linha_matriculas_agregar in Hk. simpl in Hk.
        subst k'. exact Hk'.
      * intros Hk. exists (agregar_matriculas (k, grupo_matriculas db k)).
        split; [apply chave_linha_matriculas_agregar|].
        apply in_consulta_matriculas. eauto.
  - apply (SqlFacts.order_by_desc_sorted mat_total_matriculas).
Qed.

Lemma contagens_linha_matriculas (db : banco) (r : linha_matriculas) :
  In r (consulta_matriculas db) ->
  mat_total_turmas r
  = Sql.count_distinct (ids_turmas_de db (mat_entidade_id r)) /\
  mat_total_matriculas r
  = Sql.count_distinct (ids_matriculas_de db (mat_entidade_id r)).
Proof.
  intros Hr. apply in_consulta_matriculas in Hr.
  destruct Hr as [k [Hk ->]]. simpl. split.
  - apply count_distinct_ext. intros v. apply turmas_do_grupo. exact Hk.
  - apply count_distinct_ext. intros v. apply matriculas_do_grupo. exact Hk.
Qed.

(** An enrollment of the entity sits in a class of the entity. *)
Lemma ids_matriculas_de_turma (db : banco) (id v : Z) :
  In (Some v) (ids_matriculas_de db id) ->
  exists w, In (Some w) (ids_turmas_de db id).
Proof.
  unfold ids_matriculas_de, ids_turmas_de. rewrite in_map_iff.
  intros [m [_ Hm]]. apply filter_In in Hm. destruct Hm as [_ Hde].
  apply matricula_de_true in Hde. destruct Hde as [t [Ht [Hon _]]].
  exists (t_id t). apply in_map_iff. exists t. split; [reflexivity|].
  apply filter_In. split; [exact Ht|]. apply Z.eqb_eq. exact Hon.
Qed.

(** X2. In every row of the enrollment aggregate, [total_turmas] is the
    number of distinct ids among the classes of the entity and
    [total_matriculas] the number of distinct ids among the enrollments in
    those classes, however many rows the double join repeats; an entity
    without classes has no enrollments. *)
Theorem consulta_matriculas_contagens (db : banco) (r : linha_matriculas) :
  In r (consulta_matriculas db) ->
  mat_total_turmas r
  = Sql.count_distinct (ids_turmas_de db (mat_entidade_id r)) /\
  mat_total_matriculas r
  = Sql.count_distinct (ids_matriculas_de db (mat_entidade_id r)) /\
  0 <= mat_total_turmas r /\
  0 <= mat_total_matriculas r /\
  (mat_total_turmas r = 0 -> mat_total_matriculas r = 0).
Proof.
  intros Hr. destruct (contagens_linha_matriculas db r Hr) as [Ht Hm].
  rewrite Ht, Hm.
  repeat split; try apply count_distinct_nonneg.
  intros Hzero.
  assert (Hnn := count_distinct_nonneg
                   (ids_matriculas_de db (mat_entidade_id r))).
  destruct (Z.eq_dec
              (Sql.count_distinct
                 (ids_matriculas_de db (mat_entidade_id r))) 0)
    as [Hz|Hnz]; [exact Hz|].
  exfalso.
  assert (Hex : exists v,
             In (Some v) (ids_matriculas_de db (mat_entidade_id r)))
    by (apply SqlFacts.count_distinct_pos; lia).
  destruct Hex as [v Hv]. apply ids_matriculas_de_turma in Hv.
  apply SqlFacts.count_distinct_pos in Hv. lia.
Qed.

(** ** What the criteria aggregate counts *)

Lemma filter_todos {A : Type} (p : A -> bool) (l : list A) :
  (forall a, In a l -> p a = true) -> filter p l = l.
Proof.
  induction l as [|a l IH]; simpl; intros H; [reflexivity|].
  rewrite (H a (or_introl eq_refl)). f_equal. apply IH. auto.
Qed.

Lemma filter_nenhum {A : Type} (p : A -> bool) (l : list A) :
  (forall a, In a l -> p a = false) -> filter p l = [].
Proof.
  induction l as [|a l IH]; simpl; intros H; [reflexivity|].
  rewrite (H a (or_introl eq_refl)). apply IH. auto.
Qed.

Lemma left_join_cons {A B : Type} (on : A -> B -> bool) (a : A) (l : list A)
      (r : list B) :
  Sql.left_join on (a :: l) r
  = Sql.left_join on [a] r ++ Sql.left_join on l r.
Proof. unfold Sql.left_join. simpl. rewrite app_nil_r. reflexivity. Qed.

(** With [id] a key, the group of an entity is the rows joined to it. *)
Lemma grupo_da_entidade (ents : list entidade)
      (crit : list criterio_avaliativo) (e : entidade) :
  NoDup (map e_id ents) -> In e ents ->
  filter (Sql.same_key chave_dec chave_ca (chave_entidade e))
         (Sql.left_join (fun e ca => ca_entidade_id ca =? e_id e) ents crit)
  = Sql.left_join (fun e ca => ca_entidade_id ca =? e_id e) [e] crit.
Proof.
  intros Hnd He. induction ents as [|a ents IH]; [contradiction|].
  inversion Hnd as [|? ? Hnotin Hnd']; subst.
  rewrite left_join_cons, filter_app.
  destruct He as [->|He].
  - rewrite filter_todos, filter_nenhum; [apply app_nil_r| |].
    + intros p Hp. apply SqlFacts.in_left_join_fst in Hp.
      destruct (Sql.same_key chave_dec chave_ca (chave_entidade e) p)
        eqn:Hk; [|reflexivity].
      apply SqlFacts.same_key_true in Hk. exfalso. apply Hnotin.
      unfold chave_ca, chave_entidade in Hk.
      replace (e_id e) with (e_id (fst p)) by congruence.
      apply in_map. exact Hp.
    + intros p Hp. apply SqlFacts.in_left_join_fst in Hp.
      destruct Hp as [Heq|[]]. apply SqlFacts.same_key_true.
      unfold chave_ca. rewrite <- Heq. reflexivity.
  - transitivity
      ([] ++ Sql.left_join (fun e ca => ca_entidade_id ca =? e_id e)
                           [e] crit); [|reflexivity].
    f_equal; [|exact (IH Hnd' He)].
    apply filter_nenhum. intros p Hp. apply SqlFacts.in_left_join_fst in Hp.
    destruct Hp as [Heq|[]].
    destruct (Sql.same_key chave_dec chave_ca (chave_entidade e) p)
      eqn:Hk; [|reflexivity].
    apply SqlFacts.same_key_true in Hk. exfalso. apply Hnotin.
    unfold chave_ca, chave_entidade in Hk. rewrite <- Heq in Hk.
    replace (e_id a) with (e_id e) by congruence.
    apply in_map. exact He.
Qed.

Lemma sum_case_some (c : linha_ca -> bool) (p : criterio_avaliativo -> bool)
      (e : entidade) (ms : list criterio_avaliativo) :
  (forall ca, c (e, Some ca) = p ca) ->
  Sql.sum_case c (map (fun ca => (e, Some ca)) ms)
  = Z.of_nat (List.length (filter p ms)).
Proof.
  intros Hc. induction ms as [|ca ms IH]; [reflexivity|].
  cbn [map Sql.sum_case fold_right filter].
  change (fold_right (fun a acc => (if c a then 1 else 0) + acc) 0
                     (map (fun ca => (e, Some ca)) ms))
    with (Sql.sum_case c (map (fun ca => (e, Some ca)) ms)).
  rewrite IH, Hc. destruct (p ca); cbn [List.length]; lia.
Qed.

(** On the rows joined to one entity, a [SUM(CASE ...)] is the number of its
    criteria that meet the condition. *)
Lemma sum_case_entidade (c : linha_ca -> bool)
      (p : criterio_avaliativo -> bool) (e : entidade)
      (crit : list criterio_avaliativo) :
  (forall ca, c (e, Some ca) = p ca) -> c (e, None) = false ->
  Sql.sum_case c
    (Sql.left_join (fun e ca => ca_entidade_id ca =? e_id e) [e] crit)
  = Z.of_nat
      (List.length
         (filter (fun ca => (ca_entidade_id ca =? e_id e) && p ca) crit)).
Proof.
  intros Hsome Hnone. rewrite <- filter_filter.
  unfold Sql.left_join. cbn [flat_map]. rewrite app_nil_r.
  destruct (filter (fun ca => ca_entidade_id ca =? e_id e) crit)
    as [|b ms] eqn:E.
  - simpl. rewrite Hnone. lia.
  - apply sum_case_some. exact Hsome.
Qed.

Lemma criterios_da_entidade (db : banco) (e : entidade) (v : Z) :
  In (Some v)
     (map col_ca_id
          (Sql.left_join (fun e ca => ca_entidade_id ca =? e_id e)
                         [e] (criterios_avaliativos db))) <->
  In (Some v) (ids_criterios_de db (e_id e)).
Proof.
  unfold ids_criterios_de. rewrite !in_map_iff. split.
  - intros [[e' [ca|]] [Hid Hin]]; [|discriminate].
    apply SqlFacts.in_left_join_some in Hin.
    destruct Hin as [[<-|[]] [Hca Hon]].
    exists ca. split; [exact Hid|]. apply filter_In. auto.
  - intros [ca [Hid Hca]]. apply filter_In in Hca. destruct Hca as [Hca Hon].
    exists (e, Some ca). split; [exact Hid|].
    apply SqlFacts.in_left_join_some. split; [left; reflexivity|]. auto.
Qed.

Lemma cond_formula_criterio (e : entidade) (ca : criterio_avaliativo) :
  cond_formula (e, Some ca) = nao_nulo (ca_formula_personalizada ca).
Proof.
  unfold cond_formula, tem_formula, col. simpl.
  destruct (ca_formula_personalizada ca); reflexivity.
Qed.

Lemma cond_grupo_criterio (e : entidade) (ca : criterio_avaliativo) :
  cond_grupo (e, Some ca)
  = nao_nulo (ca_criterio_calculo_grupo_id ca)
    && marcado (ca_possui_criterios_grupos ca).
Proof.
  unfold cond_grupo, tem_grupo_id, col. simpl.
  destruct (ca_criterio_calculo_grupo_id ca),
    (ca_possui_criterios_grupos ca) as [[|]|]; reflexivity.
Qed.

Lemma cond_grupo_rec_paralela_criterio (e : entidade)
      (ca : criterio_avaliativo) :
  cond_grupo_rec_paralela (e, Some ca)
  = nao_nulo (ca_criterio_calculo_grupo_id ca)
    && marcado (ca_possui_criterios_grupos ca)
    && marcado (ca_possui_recuperacao_paralela ca).
Proof.
  unfold cond_grupo_rec_paralela, tem_grupo_id, col. simpl.
  destruct (ca_criterio_calculo_grupo_id ca),
    (ca_possui_criterios_grupos ca) as [[|]|],
    (ca_possui_recuperacao_paralela ca) as [[|]|]; reflexivity.
Qed.

Lemma cond_grupo_rec_semestral_criterio (e : entidade)
      (ca : criterio_avaliativo) :
  cond_grupo_rec_semestral (e, Some ca)
  = nao_nulo (ca_criterio_calculo_grupo_id ca)
    && marcado (ca_possui_criterios_grupos ca)
    && marcado (ca_possui_recuperacao_semestral ca).
Proof.
  unfold cond_grupo_rec_semestral, tem_grupo_id, col. simpl.
  destruct (ca_criterio_calculo_grupo_id ca),
    (ca_possui_criterios_grupos ca) as [[|]|],
    (ca_possui_recuperacao_semestral ca) as [[|]|]; reflexivity.
Qed.

Lemma cond_formula_rec_paralela_criterio (e : entidade)
      (ca : criterio_avaliativo) :
  cond_formula_rec_paralela (e, Some ca)
  = nao_nulo (ca_formula_personalizada ca)
    && marcado (ca_possui_recuperacao_paralela ca).
Proof.
  unfold cond_formula_rec_paralela, tem_formula, col. simpl.
  destruct (ca_formula_personalizada ca),
    (ca_possui_recuperacao_paralela ca) as [[|]|]; reflexivity.
Qed.

Lemma cond_formula_rec_semestral_criterio (e : entidade)
      (ca : criterio_avaliativo) :
  cond_formula_rec_semestral (e, Some ca)
  = nao_nulo (ca_formula_personalizada ca)
    && marcado (ca_possui_recuperacao_semestral ca).
Proof.
  unfold cond_formula_rec_semestral, tem_formula, col. simpl.
  destruct (ca_formula_personalizada ca),
    (ca_possui_recuperacao_semestral ca) as [[|]|]; reflexivity.
Qed.

(** X3. With [id] the key of [entidades], every row of the criteria
    aggregate counts the criteria of its own entity: [total_criterios] is the
    number of distinct criterion ids, [formula_personalizada] the number of
    criteria with a formula, [criterio_grupo] the number with a group id and
    the group flag set, and the four recovery counts the number that in
    addition have the recovery flag set; a NULL flag counts as not set. *)
Theorem consulta_categorias_contagens (db : banco) (r : linha_categorias) :
  chave_primaria_entidades db ->
  In r (consulta_categorias db) ->
  total_criterios r
  = Sql.count_distinct (ids_criterios_de db (cat_entidade_id r)) /\
  formula_personalizada r
  = conta_criterios db (cat_entidade_id r)
      (fun ca => nao_nulo (ca_formula_personalizada ca)) /\
  criterio_grupo r
  = conta_criterios db (cat_entidade_id r)
      (fun ca => nao_nulo (ca_criterio_calculo_grupo_id ca)
                 && marcado (ca_possui_criterios_grupos ca)) /\
  grupo_rec_paralela r
  = conta_criterios db (cat_entidade_id r)
      (fun ca => nao_nulo (ca_criterio_calculo_grupo_id ca)
                 && marcado (ca_possui_criterios_grupos ca)
                 && marcado (ca_possui_recuperacao_paralela ca)) /\
  grupo_rec_semestral r
  = conta_criterios db (cat_entidade_id r)
      (fun ca => nao_nulo (ca_criterio_calculo_grupo_id ca)
                 && marcado (ca_possui_criterios_grupos ca)
                 && marcado (ca_possui_recuperacao_semestral ca)) /\
  formula_rec_paralela r
  = conta_criterios db (cat_entidade_id r)
      (fun ca => nao_nulo (ca_formula_personalizada ca)
                 && marcado (ca_possui_recuperacao_paralela ca)) /\
  formula_rec_semestral r
  = conta_criterios db (cat_entidade_id r)
      (fun ca => nao_nulo (ca_formula_personalizada ca)
                 && marcado (ca_possui_recuperacao_semestral ca)).
Proof.
  intros Hpk Hr. apply in_consulta_categorias in Hr.
  destruct Hr as [k [Hk [-> _]]].
  apply in_chaves_juncao_categorias in Hk. destruct Hk as [e [He <-]].
  assert (Hg : grupo_categorias db (chave_entidade e)
               = Sql.left_join (fun e ca => ca_entidade_id ca =? e_id e)
                               [e] (criterios_avaliativos db))
    by (apply grupo_da_entidade; assumption).
  unfold conta_criterios. cbn [agregar_categorias cat_entidade_id
    total_criterios formula_personalizada criterio_grupo grupo_rec_paralela
    grupo_rec_semestral formula_rec_paralela formula_rec_semestral fst snd
    chave_entidade].
  rewrite Hg.
  split; [|repeat split].
  - apply count_distinct_ext. intros v. apply criterios_da_entidade.
  - apply sum_case_entidade; [apply cond_formula_criterio | reflexivity].
  - apply sum_case_entidade; [apply cond_grupo_criterio | reflexivity].
  - apply sum_case_entidade;
      [apply cond_grupo_rec_paralela_criterio | reflexivity].
  - apply sum_case_entidade;
      [apply cond_grupo_rec_semestral_criterio | reflexivity].
  - apply sum_case_entidade;
      [apply cond_formula_rec_paralela_criterio | reflexivity].
  - apply sum_case_entidade;
      [apply cond_formula_rec_semestral_criterio | reflexivity].
Qed.

(** ** The merge, again *)

Lemma left_join_length {A B : Type} (on : A -> B -> bool) (l : list A)
      (r : list B) :
  (List.length l <= List.length (Sql.left_join on l r))%nat.
Proof.
  induction l as [|a l IH]; [simpl; lia|].
  rewrite left_join_cons, length_app. unfold Sql.left_join at 1.
  cbn [flat_map]. rewrite app_nil_r.
  destruct (filter (on a) r) as [|b ms]; simpl; lia.
Qed.

(** X4. Whatever the right frame holds, the left merge keeps every criteria
    row at least once and adds no row of its own: each criteria row is the
    criteria part of some merged row, each merged row comes from a criteria
    row, and the merged table is at least as long. *)
Theorem merge_nao_perde_linhas (dfc : list linha_categorias)
        (dfm : list linha_matriculas) :
  (forall c, In c dfc ->
             exists r, In r (montar_df_completo dfc dfm) /\
                       categorias r = c) /\
  (forall r, In r (montar_df_completo dfc dfm) -> In (categorias r) dfc) /\
  (List.length dfc <= List.length (montar_df_completo dfc dfm))%nat.
Proof.
  split; [|split].
  - intros c Hc.
    destruct (left_join_covers
                (fun c m => cat_entidade_id c =? mat_entidade_id m)
                dfc dfm c Hc) as [om Hom].
    exists (derivar {| mg_categorias := c;
                       mg_total_matriculas :=
                         option_map mat_total_matriculas om;
                       mg_total_turmas := option_map mat_total_turmas om |}).
    split; [|reflexivity]. apply in_montar_df_completo. eauto.
  - apply categorias_montar_df_completo.
  - unfold montar_df_completo, pd_merge_left. rewrite !length_map.
    apply left_join_length.
Qed.

(** Every criteria row finds its entity in the enrollment aggregate. *)
Lemma linha_matriculas_da_categoria (db : banco) (c : linha_categorias) :
  In c (consulta_categorias db) ->
  exists m, In m (consulta_matriculas db) /\
            mat_entidade_id m = cat_entidade_id c.
Proof.
  intros Hc. apply in_consulta_categorias in Hc.
  destruct Hc as [k [Hk [-> _]]].
  apply in_chaves_juncao_categorias in Hk.
  apply in_chaves_juncao_matriculas in Hk.
  exists (agregar_matriculas (k, grupo_matriculas db k)). split.
  - apply in_consulta_matriculas. eauto.
  - reflexivity.
Qed.

Lemma in_pd_merge_left_pipeline (db : banco) (mg : linha_mesclada) :
  In mg (pd_merge_left (consulta_categorias db) (consulta_matriculas db)) ->
  In (mg_categorias mg) (consulta_categorias db) /\
  exists m, In m (consulta_matriculas db) /\
            mat_entidade_id m = cat_entidade_id (mg_categorias mg) /\
            mg_total_matriculas mg = Some (mat_total_matriculas m) /\
            mg_total_turmas mg = Some (mat_total_turmas m).
Proof.
  unfold pd_merge_left. rewrite in_map_iff.
  intros [[c om] [<- Hin]]. cbn [mg_categorias mg_total_matriculas
                                 mg_total_turmas fst snd].
  assert (Hc : In c (consulta_categorias db))
    by (apply SqlFacts.in_left_join_fst in Hin; exact Hin).
  split; [exact Hc|]. destruct om as [m|].
  - apply SqlFacts.in_left_join_some in Hin. destruct Hin as [_ [Hm Hon]].
    apply Z.eqb_eq in Hon. exists m. auto.
  - exfalso. apply SqlFacts.in_left_join_none in Hin.
    destruct Hin as [_ Hnone].
    destruct (linha_matriculas_da_categoria db c Hc) as [m [Hm Hid]].
    specialize (Hnone m Hm). apply Z.eqb_neq in Hnone. auto.
Qed.

Lemma linha_df_completo (db : banco) (r : linha_completa) :
  In r (df_completo_de db) ->
  In (categorias r) (consulta_categorias db) /\
  total_matriculas r
  = Sql.count_distinct (ids_matriculas_de db (entidade_id r)) /\
  total_turmas r
  = Sql.count_distinct (ids_turmas_de db (entidade_id r)).
Proof.
  unfold df_completo_de, montar_df_completo. rewrite in_map_iff.
  intros [mg [<- Hmg]]. apply in_pd_merge_left_pipeline in Hmg.
  destruct Hmg as [Hc [m [Hm [Hid [Hmat Htur]]]]].
  destruct (contagens_linha_matriculas db m Hm) as [Ht Hn].
  unfold entidade_id. cbn [derivar categorias total_matriculas total_turmas].
  rewrite Hmat, Htur, <- Hid. simpl. auto.
Qed.

(** X5. In the table the script builds from the database, the merge finds
    an enrollment row for every criteria row, so no cell is NaN and
    [fillna(0)] changes nothing; in every row of [df_completo],
    [total_matriculas] and [total_turmas] are the numbers of distinct
    enrollments and classes of the row's own entity. *)
Theorem merge_sem_nan (db : banco) :
  (forall mg,
      In mg (pd_merge_left (consulta_categorias db)
                           (consulta_matriculas db)) ->
      mg_total_matriculas mg
      = Some (Sql.count_distinct
                (ids_matriculas_de db (cat_entidade_id (mg_categorias mg))))
      /\
      mg_total_turmas mg
      = Some (Sql.count_distinct
                (ids_turmas_de db (cat_entidade_id (mg_categorias mg))))) /\
  (forall r,
      In r (df_completo_de db) ->
      total_matriculas r
      = Sql.count_distinct (ids_matriculas_de db (entidade_id r)) /\
      total_turmas r
      = Sql.count_distinct (ids_turmas_de db (entidade_id r))).
Proof.
  split.
  - intros mg Hmg. apply in_pd_merge_left_pipeline in Hmg.
    destruct Hmg as [_ [m [Hm [Hid [-> ->]]]]].
    destruct (contagens_linha_matriculas db m Hm) as [Ht Hn].
    rewrite Ht, Hn, Hid. auto.
  - intros r Hr. apply linha_df_completo in Hr. tauto.
Qed.

(** ** The filters, again *)

(** X6. Filtering an already filtered table with the same name selection is
    filtering once with the larger of each pair of thresholds; in particular
    the filters are idempotent. *)
Theorem aplicar_filtros_compoe (sel : list string) (mm1 mc1 mm2 mc2 : Z)
        (df : list linha_completa) :
  aplicar_filtros sel mm2 mc2 (aplicar_filtros sel mm1 mc1 df)
  = aplicar_filtros sel (Z.max mm1 mm2) (Z.max mc1 mc2) df /\
  aplicar_filtros sel mm1 mc1 (aplicar_filtros sel mm1 mc1 df)
  = aplicar_filtros sel mm1 mc1 df.
Proof.
  assert (H : forall a1 c1 a2 c2,
             aplicar_filtros sel a2 c2 (aplicar_filtros sel a1 c1 df)
             = aplicar_filtros sel (Z.max a1 a2) (Z.max c1 c2) df).
  { intros a1 c1 a2 c2. rewrite !aplicar_filtros_passa, filter_filter.
    apply filter_ext. intros r. apply eq_true_iff_eq.
    rewrite andb_true_iff, !passa_filtros_true. intuition lia. }
  split; [apply H|]. rewrite H, !Z.max_id. reflexivity.
Qed.

Lemma passa_filtros_padrao (db : banco) (mm mc : Z) (r : linha_completa) :
  mm <= 0 -> mc <= 1 -> In r (df_completo_de db) ->
  passa_filtros [] mm mc r = true.
Proof.
  intros Hmm Hmc Hr. apply passa_filtros_true.
  apply linha_df_completo in Hr. destruct Hr as [Hc [Hmat _]].
  apply in_consulta_categorias in Hc. destruct Hc as [_ [_ [_ Hpos]]].
  assert (Hnn := count_distinct_nonneg
                   (ids_matriculas_de db (entidade_id r))).
  split; [congruence|]. split; lia.
Qed.

(** X7. With no name selected and the two sliders at their lowest values
    (0 enrollments, 1 criterion), the filters keep the whole table the script
    builds from the database. *)
Theorem filtros_padrao_mostram_tudo (db : banco) (mm mc : Z) :
  mm <= 0 -> mc <= 1 ->
  aplicar_filtros [] mm mc (df_completo_de db) = df_completo_de db.
Proof.
  intros Hmm Hmc. rewrite aplicar_filtros_passa. apply filter_todos.
  intros r Hr. apply (passa_filtros_padrao db); assumption.
Qed.

(** ** The summary *)




Lemma soma_le (f g : linha_completa -> Z) (df : list linha_completa) :
  (forall r, In r df -> f r <= g r) -> soma f df <= soma g df.
Proof.
  unfold soma. induction df as [|r df IH]; intros H; cbn [fold_right];
    [lia|].
  assert (H1 := H r (or_introl eq_refl)).
  assert (H2 := IH (fun x Hx => H x (or_intror Hx))).
  lia.
Qed.

(** The bounds of one row of the criteria aggregate, with both keys. *)
Lemma limites_linha_categorias (db : banco) (c : linha_categorias) :
  chave_primaria_entidades db -> chave_primaria_criterios db ->
  In c (consulta_categorias db) ->
  formula_personalizada c <= total_criterios c /\
  criterio_grupo c <= total_criterios c /\
  grupo_rec_paralela c <= criterio_grupo c /\
  grupo_rec_semestral c <= criterio_grupo c /\
  formula_rec_paralela c <= formula_personalizada c /\
  formula_rec_semestral c <= formula_personalizada c.
Proof.
  intros He Hc Hin. apply in_consulta_categorias in Hin.
  destruct Hin as [k [_ [-> _]]].
  rewrite (total_criterios_grupo db k He Hc). cbn [agregar_categorias
    formula_personalizada criterio_grupo grupo_rec_paralela
    grupo_rec_semestral formula_rec_paralela formula_rec_semestral snd].
  split; [apply SqlFacts.sum_case_le_non_null, cond_formula_non_null|].
  split; [apply SqlFacts.sum_case_le_non_null, cond_grupo_non_null|].
  split; [apply SqlFacts.sum_case_mono, cond_grupo_rec_paralela_grupo|].
  split; [apply SqlFacts.sum_case_mono, cond_grupo_rec_semestral_grupo|].
  split; [apply SqlFacts.sum_case_mono, cond_formula_rec_paralela_formula|].
  apply SqlFacts.sum_case_mono, cond_formula_rec_semestral_formula.
Qed.

Lemma in_aplicar_filtros_df_completo (db : banco) (sel : list string)
      (mm mc : Z) (r : linha_completa) :
  In r (aplicar_filtros sel mm mc (df_completo_de db)) ->
  In (categorias r) (consulta_categorias db).
Proof.
  rewrite aplicar_filtros_passa, filter_In. intros [Hr _].
  apply linha_df_completo in Hr. tauto.
Qed.

(** X9. With [id] the key of both tables, the totals of the summary over
    any filtered view of the table built from the database keep the bounds
    of the rows: the formula and group totals are at most the total of
    criteria, and each recovery total is at most its parent total. *)
Theorem resumo_limitado (db : banco) (sel : list string) (mm mc : Z) :
  chave_primaria_entidades db -> chave_primaria_criterios db ->
  soma (fun r => formula_personalizada (categorias r))
       (aplicar_filtros sel mm mc (df_completo_de db))
  <= soma (fun r => total_criterios (categorias r))
          (aplicar_filtros sel mm mc (df_completo_de db)) /\
  soma (fun r => criterio_grupo (categorias r))
       (aplicar_filtros sel mm mc (df_completo_de db))
  <= soma (fun r => total_criterios (categorias r))
          (aplicar_filtros sel mm mc (df_completo_de db)) /\
  soma (fun r => grupo_rec_paralela (categorias r))
       (aplicar_filtros sel mm mc (df_completo_de db))
  <= soma (fun r => criterio_grupo (categorias r))
          (aplicar_filtros sel mm mc (df_completo_de db)) /\
  soma (fun r => grupo_rec_semestral (categorias r))
       (aplicar_filtros sel mm mc (df_completo_de db))
  <= soma (fun r => criterio_grupo (categorias r))
          (aplicar_filtros sel mm mc (df_completo_de db)) /\
  soma (fun r => formula_rec_paralela (categorias r))
       (aplicar_filtros sel mm mc (df_completo_de db))
  <= soma (fun r => formula_personalizada (categorias r))
          (aplicar_filtros sel mm mc (df_completo_de db)) /\
  soma (fun r => formula_rec_semestral (categorias r))
       (aplicar_filtros sel mm mc (df_completo_de db))
  <= soma (fun r => formula_personalizada (categorias r))
          (aplicar_filtros sel mm mc (df_completo_de db)).
Proof.
  intros He Hc.
  assert (H : forall r,
             In r (aplicar_filtros sel mm mc (df_completo_de db)) ->
             formula_personalizada (categorias r)
             <= total_criterios (categorias r) /\
             criterio_grupo (categorias r)
             <= total_criterios (categorias r) /\
             grupo_rec_paralela (categorias r)
             <= criterio_grupo (categorias r) /\
             grupo_rec_semestral (categorias r)
             <= criterio_grupo (categorias r) /\
             formula_rec_paralela (categorias r)
             <= formula_personalizada (categorias r) /\
             formula_rec_semestral (categorias r)
             <= formula_personalizada (categorias r)).
  { intros r Hr. apply (limites_linha_categorias db); try assumption.
    apply (in_aplicar_filtros_df_completo db sel mm mc). exact Hr. }
  repeat split; apply soma_le; intros r Hr; apply H in Hr; tauto.
Qed.

(** ** The pie chart *)

Lemma soma_fatias_positivas (fatias : list (string * Z)) :
  Forall (fun fatia => 0 <= snd fatia) fatias ->
  soma_fatias (filter (fun fatia => snd fatia >? 0) fatias)
  = soma_fatias fatias.
Proof.
  unfold soma_fatias. induction 1 as [|fatia fatias Hf _ IH]; [reflexivity|].
  cbn [filter]. destruct (Z.gtb_spec (snd fatia) 0); cbn [fold_right];
    rewrite IH; lia.
Qed.

(** X10. Every slice of the pie chart has a positive quantity, because the
    others are removed; and when none of the seven quantities is negative,
    the slices add up to the total of criteria of the filtered table. *)
Theorem df_pizza_correto (df : list linha_completa) :
  Forall (fun fatia => 0 < snd fatia) (df_pizza df) /\
  (forall fatia, In fatia (df_pizza df) -> In fatia (dados_pizza df)) /\
  (Forall (fun fatia => 0 <= snd fatia) (dados_pizza df) ->
   soma_fatias (df_pizza df)
   = soma (fun r => total_criterios (categorias r)) df).
Proof.
  split; [|split].
  - apply Forall_forall. intros fatia Hin. apply filter_In in Hin.
    destruct Hin as [_ Hpos]. apply Z.gtb_lt in Hpos. lia.
  - intros fatia Hin. apply filter_In in Hin. tauto.
  - intros Hnn. unfold df_pizza. rewrite soma_fatias_positivas by exact Hnn.
    unfold dados_pizza, soma_fatias. cbn [fold_right snd]. lia.
Qed.

(** A criterion with both a formula and a group is counted in two slices:
    "Outros" turns negative and is removed, and the slices that remain add up
    to more than the one criterion there is. *)
Example df_pizza_sobreposto :
  let c := {| cat_entidade_id := 1; cat_nome_entidade := "A";
              total_criterios := 1; formula_personalizada := 1;
              criterio_grupo := 1; grupo_rec_paralela := 0;
              grupo_rec_semestral := 0; formula_rec_paralela := 0;
              formula_rec_semestral := 0 |} in
  df_pizza (montar_df_completo [c] [])
  = [ ("Fórmula Personalizada (outros)", 1);
      ("Critério de Grupo (outros)", 1) ]%string.
Proof. vm_compute. reflexivity. Qed.

(** ** The top-N views *)

Lemma StronglySorted_app_inv {A : Type} (R : A -> A -> Prop)
      (l1 l2 : list A) :
  StronglySorted R (l1 ++ l2) ->
  StronglySorted R l1 /\
  (forall x y, In x l1 -> In y l2 -> R x y).
Proof.
  induction l1 as [|a l1 IH]; simpl; intros H.
  - split; [constructor | contradiction].
  - inversion H as [|? ? Hs Hall]; subst.
    destruct (IH Hs) as [Hs1 Hcross]. split.
    + constructor; [exact Hs1|].
      apply Forall_forall. intros x Hx.
      rewrite Forall_forall in Hall. apply Hall, in_or_app. auto.
    + intros x y [<-|Hx] Hy.
      * rewrite Forall_forall in Hall. apply Hall, in_or_app. auto.
      * apply Hcross; assumption.
Qed.

(** X11. A top-N view holds [min N (len df)] rows of the filtered table in
    descending order of its column, and no row it leaves out has a greater
    value in that column than a row it shows. *)
Theorem top_correto (coluna : linha_completa -> Z) (num_entidades : nat)
        (df : list linha_completa) :
  List.length (top coluna num_entidades df)
  = Nat.min num_entidades (List.length df) /\
  StronglySorted (fun a b => coluna b <= coluna a)
                 (top coluna num_entidades df) /\
  exists resto,
    Permutation (top coluna num_entidades df ++ resto) df /\
    (forall x y, In x (top coluna num_entidades df) -> In y resto ->
                 coluna y <= coluna x).
Proof.
  unfold top.
  assert (Hperm := SqlFacts.order_by_desc_perm coluna df).
  assert (Hsort := SqlFacts.order_by_desc_sorted coluna df).
  rewrite <- (firstn_skipn num_entidades (Sql.order_by_desc coluna df))
    in Hsort.
  apply StronglySorted_app_inv in Hsort. destruct Hsort as [Hs Hcross].
  split; [|split].
  - rewrite length_firstn, (Permutation_length Hperm). reflexivity.
  - exact Hs.
  - exists (skipn num_entidades (Sql.order_by_desc coluna df)). split.
    + rewrite firstn_skipn. exact Hperm.
    + exact Hcross.
Qed.

(** ** The category table *)

(** X12. The table of a category holds exactly the filtered rows with a
    positive count in that category, each as often as in the filtered table,
    in descending order of the count; and each displayed row carries that
    count, positive, with its percentage of the row's [total_criterios]. *)
Theorem df_categoria_correto (c : categoria) (df : list linha_completa) :
  (forall r, In r (df_categoria c df) <->
             In r df /\ 0 < mapa_categorias c r) /\
  Permutation (df_categoria c df)
              (filter (fun r => mapa_categorias c r >? 0) df) /\
  StronglySorted (fun a b => mapa_categorias c b <= mapa_categorias c a)
                 (df_categoria c df) /\
  Forall (fun d => 0 < dc_coluna_categoria d /\
                   dc_percentual d
                   = percentual (dc_coluna_categoria d)
                                (dc_total_criterios d))
         (df_display_cat c df).
Proof.
  unfold df_categoria, com_categoria.
  assert (Hin : forall r,
             In r (Sql.order_by_desc (mapa_categorias c)
                     (filter (fun r => mapa_categorias c r >? 0) df)) <->
             In r df /\ 0 < mapa_categorias c r).
  { intros r. rewrite SqlFacts.in_order_by_desc, filter_In, Z.gtb_lt.
    intuition lia. }
  split; [exact Hin|]. split; [apply SqlFacts.order_by_desc_perm|].
  split; [apply (SqlFacts.order_by_desc_sorted (mapa_categorias c))|].
  unfold df_display_cat, df_categoria, com_categoria.
  apply Forall_forall. intros d Hd. apply in_map_iff in Hd.
  destruct Hd as [r [<- Hr]]. apply Hin in Hr. simpl. tauto.
Qed.

(** ** The entity tab *)

Lemma filter_primeiro {A : Type} (p : A -> bool) (l : list A) (x : A)
      (xs : list A) :
  filter p l = x :: xs ->
  exists antes depois,
    l = antes ++ x :: depois /\ p x = true /\
    (forall a, In a antes -> p a = false).
Proof.
  induction l as [|a l IH]; simpl; [discriminate|].
  destruct (p a) eqn:Hpa.
  - intros Heq. inversion Heq; subst. exists [], l.
    split; [reflexivity|]. split; [exact Hpa | contradiction].
  - intros Heq. destruct (IH Heq) as [antes [depois [-> [Hpx Hantes]]]].
    exists (a :: antes), depois. split; [reflexivity|].
    split; [exact Hpx|]. intros b [<-|Hb]; auto.
Qed.

(** X13. The entity tab shows a detail only when the filtered table has at
    least two rows; with a single row or none it shows the note instead. With
    two or more rows and a name the table holds, it shows the first row of
    that name, with its six counts, and raises nothing; a name the table
    does not hold ends in [IndexError]. *)
Theorem analise_por_entidade_correta (entidade_analise : string)
        (df : list linha_completa) :
  ((List.length df <= 1)%nat ->
   analise_por_entidade entidade_analise df
   = ([], inr SelecionePeloMenosUma)) /\
  ((2 <= List.length df)%nat ->
   In entidade_analise (map nome_entidade df) ->
   exists antes r depois,
     df = antes ++ r :: depois /\
     nome_entidade r = entidade_analise /\
     (forall x, In x antes -> nome_entidade x <> entidade_analise) /\
     analise_por_entidade entidade_analise df
     = ([], inr (Detalhe r (valores r)))) /\
  ((2 <= List.length df)%nat ->
   ~ In entidade_analise (map nome_entidade df) ->
   exists e, analise_por_entidade entidade_analise df = ([], inl e)).
Proof.
  unfold analise_por_entidade. split; [|split].
  - intros Hlen. destruct (Nat.ltb_spec 1 (List.length df)); [lia|].
    reflexivity.
  - intros Hlen Hin. destruct (Nat.ltb_spec 1 (List.length df)); [|lia].
    apply in_map_iff in Hin. destruct Hin as [r0 [Hnome Hr0]].
    assert (Hf : In r0 (filter (fun r => String.eqb (nome_entidade r)
                                                    entidade_analise) df))
      by (apply filter_In; split; [exact Hr0 | apply String.eqb_eq; exact Hnome]).
    destruct (filter (fun r => String.eqb (nome_entidade r) entidade_analise)
                     df) as [|r rs] eqn:E; [contradiction|].
    destruct (filter_primeiro _ _ _ _ E) as [antes [depois [Hdf [Hr Hantes]]]].
    exists antes, r, depois. split; [exact Hdf|].
    split; [apply String.eqb_eq; exact Hr|]. split; [|reflexivity].
    intros x Hx Heq. apply Hantes in Hx. apply String.eqb_neq in Hx. auto.
  - intros Hlen Hnotin. destruct (Nat.ltb_spec 1 (List.length df)); [|lia].
    destruct (filter (fun r => String.eqb (nome_entidade r) entidade_analise)
                     df) as [|r rs] eqn:E.
    + eexists. reflexivity.
    + exfalso. apply Hnotin.
      assert (Hf : In r (filter (fun r => String.eqb (nome_entidade r)
                                                     entidade_analise) df))
        by (rewrite E; left; reflexivity).
      apply filter_In in Hf. destruct Hf as [Hr Heq].
      apply String.eqb_eq in Heq. rewrite <- Heq. apply in_map. exact Hr.
Qed.

(** ** Runs of the script *)

Lemma consulta_categorias_vazia (db : banco) :
  (forall e, In e (entidades db) -> tem_criterio db e = false) ->
  consulta_categorias db = [].
Proof.
  intros Hsem. destruct (consulta_categorias db) as [|r rs] eqn:E;
    [reflexivity|].
  assert (Hr : In r (consulta_categorias db)) by (rewrite E; left; reflexivity).
  apply in_consulta_categorias in Hr. destruct Hr as [k [_ [-> Hpos]]].
  apply total_criterios_pos in Hpos. destruct Hpos as [e [He [_ Hex]]].
  rewrite (Hsem e He) in Hex. discriminate.
Qed.

Lemma script_carregado (amb : ambiente) (w : widgets) (db : banco) :
  criar_engine amb = inr db ->
  falha_sql amb (texto_sql query_categorias) = None ->
  falha_sql amb (texto_sql query_matriculas) = None ->
  script amb w
  = analisar w (consulta_categorias db) (consulta_matriculas db).
Proof.
  intros Hc Hq1 Hq2. unfold script, carregar_dados_categorias,
    carregar_dados_matriculas.
  rewrite (executar_consulta_sucesso amb query_categorias db Hc Hq1).
  rewrite (executar_consulta_sucesso amb query_matriculas db Hc Hq2).
  cbn [bind app renderizar selecionar query_categorias query_matriculas].
  destruct (analisar w (consulta_categorias db) (consulta_matriculas db)).
  reflexivity.
Qed.

(** X14. When both queries run but no entity has any criterion, the merged
    table is empty: the script announces 0 entities and then ends in the
    [ValueError] of [int(NaN)], the maximum of an empty column, before any
    filter, metric or table is produced. *)
Theorem script_sem_criterios (amb : ambiente) (w : widgets) (db : banco) :
  criar_engine amb = inr db ->
  falha_sql amb (texto_sql query_categorias) = None ->
  falha_sql amb (texto_sql query_matriculas) = None ->
  (forall e, In e (entidades db) -> tem_criterio db e = false) ->
  script amb w
  = ([st_success 0],
     inl {| str_e := "cannot convert float NaN to integer" |}).
Proof.
  intros Hc Hq1 Hq2 Hsem.
  rewrite (script_carregado amb w db Hc Hq1 Hq2).
  rewrite (consulta_categorias_vazia db Hsem). reflexivity.
Qed.



(** ** The further properties at the scenario *)

Lemma consulta_matriculas_todas_entidades_cenario :
  chave_primaria_entidades cenario /\
  Permutation (map chave_linha_matriculas (consulta_matriculas cenario))
              (map chave_entidade (entidades cenario)) /\
  StronglySorted
    (fun a b => mat_total_matriculas b <= mat_total_matriculas a)
    (consulta_matriculas cenario).
Proof.
  split; [exact chave_primaria_entidades_cenario|].
  exact (consulta_matriculas_todas_entidades
           cenario chave_primaria_entidades_cenario).
Defined.

Lemma linha_A_matriculas_cenario :
  In linha_A_matriculas (consulta_matriculas cenario).
Proof. rewrite consulta_matriculas_cenario. left. reflexivity. Qed.

Lemma consulta_matriculas_contagens_cenario :
  In linha_A_matriculas (consulta_matriculas cenario) /\
  mat_total_turmas linha_A_matriculas
  = Sql.count_distinct
      (ids_turmas_de cenario (mat_entidade_id linha_A_matriculas)) /\
  mat_total_matriculas linha_A_matriculas
  = Sql.count_distinct
      (ids_matriculas_de cenario (mat_entidade_id linha_A_matriculas)) /\
  0 <= mat_total_turmas linha_A_matriculas /\
  0 <= mat_total_matriculas linha_A_matriculas /\
  (mat_total_turmas linha_A_matriculas = 0 ->
   mat_total_matriculas linha_A_matriculas = 0).
Proof.
  split; [exact linha_A_matriculas_cenario|].
  exact (consulta_matriculas_contagens cenario linha_A_matriculas
           linha_A_matriculas_cenario).
Defined.

Lemma linha_A_cenario : In linha_A (consulta_categorias cenario).
Proof. rewrite consulta_categorias_cenario. left. reflexivity. Qed.

Lemma consulta_categorias_contagens_cenario :
  chave_primaria_entidades cenario /\
  In linha_A (consulta_categorias cenario) /\
  total_criterios linha_A
  = Sql.count_distinct (ids_criterios_de cenario (cat_entidade_id linha_A)) /\
  formula_personalizada linha_A
  = conta_criterios cenario (cat_entidade_id linha_A)
      (fun ca => nao_nulo (ca_formula_personalizada ca)) /\
  criterio_grupo linha_A
  = conta_criterios cenario (cat_entidade_id linha_A)
      (fun ca => nao_nulo (ca_criterio_calculo_grupo_id ca)
                 && marcado (ca_possui_criterios_grupos ca)) /\
  grupo_rec_paralela linha_A
  = conta_criterios cenario (cat_entidade_id linha_A)
      (fun ca => nao_nulo (ca_criterio_calculo_grupo_id ca)
                 && marcado (ca_possui_criterios_grupos ca)
                 && marcado (ca_possui_recuperacao_paralela ca)) /\
  grupo_rec_semestral linha_A
  = conta_criterios cenario (cat_entidade_id linha_A)
      (fun ca => nao_nulo (ca_criterio_calculo_grupo_id ca)
                 && marcado (ca_possui_criterios_grupos ca)
                 && marcado (ca_possui_recuperacao_semestral ca)) /\
  formula_rec_paralela linha_A
  = conta_criterios cenario (cat_entidade_id linha_A)
      (fun ca => nao_nulo (ca_formula_personalizada ca)
                 && marcado (ca_possui_recuperacao_paralela ca)) /\
  formula_rec_semestral linha_A
  = conta_criterios cenario (cat_entidade_id linha_A)
      (fun ca => nao_nulo (ca_formula_personalizada ca)
                 && marcado (ca_possui_recuperacao_semestral ca)).
Proof.
  split; [exact chave_primaria_entidades_cenario|].
  split; [exact linha_A_cenario|].
  exact (consulta_categorias_contagens cenario linha_A
           chave_primaria_entidades_cenario linha_A_cenario).
Defined.

Lemma filtros_padrao_mostram_tudo_cenario :
  0 <= 0 /\ 1 <= 1 /\
  aplicar_filtros [] 0 1 (df_completo_de cenario) = df_completo_de cenario.
Proof.
  assert (H1 : 0 <= 0) by lia.
  assert (H2 : 1 <= 1) by lia.
  split; [exact H1|]. split; [exact H2|].
  exact (filtros_padrao_mostram_tudo cenario 0 1 H1 H2).
Defined.

Lemma resumo_limitado_cenario :
  chave_primaria_entidades cenario /\
  chave_primaria_criterios cenario /\
  soma (fun r => formula_personalizada (categorias r))
       (aplicar_filtros [] 0 1 (df_completo_de cenario))
  <= soma (fun r => total_criterios (categorias r))
          (aplicar_filtros [] 0 1 (df_completo_de cenario)) /\
  soma (fun r => criterio_grupo (categorias r))
       (aplicar_filtros [] 0 1 (df_completo_de cenario))
  <= soma (fun r => total_criterios (categorias r))
          (aplicar_filtros [] 0 1 (df_completo_de cenario)) /\
  soma (fun r => grupo_rec_paralela (categorias r))
       (aplicar_filtros [] 0 1 (df_completo_de cenario))
  <= soma (fun r => criterio_grupo (categorias r))
          (aplicar_filtros [] 0 1 (df_completo_de cenario)) /\
  soma (fun r => grupo_rec_semestral (categorias r))
       (aplicar_filtros [] 0 1 (df_completo_de cenario))
  <= soma (fun r => criterio_grupo (categorias r))
          (aplicar_filtros [] 0 1 (df_completo_de cenario)) /\
  soma (fun r => formula_rec_paralela (categorias r))
       (aplicar_filtros [] 0 1 (df_completo_de cenario))
  <= soma (fun r => formula_personalizada (categorias r))
          (aplicar_filtros [] 0 1 (df_completo_de cenario)) /\
  soma (fun r => formula_rec_semestral (categorias r))
       (aplicar_filtros [] 0 1 (df_completo_de cenario))
  <= soma (fun r => formula_personalizada (categorias r))
          (aplicar_filtros [] 0 1 (df_completo_de cenario)).
Proof.
  split; [exact chave_primaria_entidades_cenario|].
  split; [exact chave_primaria_criterios_cenario|].
  exact (resumo_limitado cenario [] 0 1
           chave_primaria_entidades_cenario
           chave_primaria_criterios_cenario).
Defined.

Lemma script_sem_criterios_banco_vazio :
  criar_engine (ambiente_no_ar banco_vazio) = inr banco_vazio /\
  falha_sql (ambiente_no_ar banco_vazio) (texto_sql query_categorias)
  = None /\
  falha_sql (ambiente_no_ar banco_vazio) (texto_sql query_matriculas)
  = None /\
  (forall e, In e (entidades banco_vazio) ->
             tem_criterio banco_vazio e = false) /\
  script (ambiente_no_ar banco_vazio) widgets_padrao
  = ([st_success 0],
     inl {| str_e := "cannot convert float NaN to integer" |}).
Proof.
  assert (H4 : forall e, In e (entidades banco_vazio) ->
                         tem_criterio banco_vazio e = false)
    by (intros e []).
  split; [reflexivity|]. split; [reflexivity|]. split; [reflexivity|].
  split; [exact H4|].
  exact (script_sem_criterios (ambiente_no_ar banco_vazio) widgets_padrao
           banco_vazio eq_refl eq_refl eq_refl H4).
Defined.



(** ** The two outcomes of the executor *)

(** X16. A call of the executor has one of two outcomes: it emits nothing
    and returns the rows the query selects on the connection, or it returns
    [None] together with the error message and the query text; it never
    returns [None] without that report. *)
Theorem executar_consulta_resultados {R : Type} (amb : ambiente)
        (query : consulta R) :
  (exists conn,
      criar_engine amb = inr conn /\
      executar_consulta amb query
      = ([], inr (Some (selecionar query conn)))) \/
  (exists e,
      executar_consulta amb query
      = ([st_error ("Erro ao executar consulta: " ++ str_e e);
          st_code (texto_sql query)],
         inr None)).
Proof.
  unfold executar_consulta, get_connection, pd_read_sql.
  destruct (criar_engine amb) as [e|conn] eqn:Hc.
  - right. exists e. reflexivity.
  - destruct (falha_sql amb (texto_sql query)) as [e|].
    + right. exists e. reflexivity.
    + left. exists conn. split; reflexivity.
Qed.
